(** * Latent text-to-image diffusion wrapper and its DreamBooth driver

    A shallow embedding of [stable-diffusion/model.py] (the [StableDiffusion]
    wrapper: [forward], [loss], [eval_forward], [generate], and
    [build_stable_diffusion_model]) and of
    [examples/stable_diffusion_dreambooth/main.py] (the driver [main]).

    Python effects are explicit: a computation takes the world (the state of
    torch's global generator, the state of the inference scheduler object,
    the directory tree, the device environment) and returns a result or the
    exception it raised, the new world, and the calls it made to its
    collaborators, in order.  The pretrained networks, the schedulers, the
    hub and the driver's helper modules are parameters, bundled in records;
    tensors are lists of slices over an element type with the scalar
    arithmetic the source uses, instantiated with 32-bit IEEE floats and with
    exact rationals.

    The file has three parts: the model of the two source files, a small
    concrete instance to run it on, and the properties. *)

From Stdlib Require Import ZArith QArith Qcanon Qround Ascii String List Bool Lia Ring.
From Stdlib Require Import Floats.SpecFloat.
From stdpp Require Import base gmap strings pretty.
Import ListNotations.

Local Open Scope string_scope.
Local Open Scope list_scope.

(** ** Exceptions and results *)

Inductive Exn : Type :=
| ValueError (msg : string)
| TypeError (msg : string)
| AttributeError (msg : string)
| KeyError (key : string)
| IndexError (msg : string)
| OSError (msg : string)
| RuntimeError (msg : string).

Inductive Result (A : Type) : Type :=
| Ok (a : A)
| Raise (e : Exn).

Arguments Ok {A} a.
Arguments Raise {A} e.

Definition is_raise {A} (r : Result A) : bool :=
  match r with Ok _ => false | Raise _ => true end.

(** ** The effect monad: world passing, exceptions, and a log of calls *)

Record Outcome (W E A : Type) : Type := MkOutcome {
  result : Result A;
  world : W;
  events : list E
}.

Arguments MkOutcome {W E A} result world events.
Arguments result {W E A} o.
Arguments world {W E A} o.
Arguments events {W E A} o.

Definition M (W E A : Type) : Type := W -> Outcome W E A.

Definition ret {W E A} (a : A) : M W E A :=
  fun w => MkOutcome (Ok a) w [].

Definition raise {W E A} (e : Exn) : M W E A :=
  fun w => MkOutcome (Raise e) w [].

Definition bind {W E A B} (m : M W E A) (k : A -> M W E B) : M W E B :=
  fun w =>
    match m w with
    | MkOutcome (Ok a) w1 evs =>
        match k a w1 with
        | MkOutcome r w2 evs' => MkOutcome r w2 (evs ++ evs')
        end
    | MkOutcome (Raise e) w1 evs => MkOutcome (Raise e) w1 evs
    end.

Definition emit {W E} (e : E) : M W E unit :=
  fun w => MkOutcome (Ok tt) w [e].

Definition gets {W E A} (f : W -> A) : M W E A :=
  fun w => MkOutcome (Ok (f w)) w [].

Definition modify {W E} (f : W -> W) : M W E unit :=
  fun w => MkOutcome (Ok tt) (f w) [].

Definition lift {W E A} (r : Result A) : M W E A :=
  fun w => MkOutcome r w [].

Notation "'let!' x ':=' m 'in' k" := (bind m (fun x => k))
  (at level 10, x pattern, m at level 100, k at level 200).
Notation "m ';;' k" := (bind m (fun _ => k))
  (at level 100, k at level 200, right associativity).

(** ** Element types of tensors

    The source never fixes a dtype: whatever the pretrained weights carry
    (torch's default is 32-bit IEEE floats) flows through.  [DType] is the
    scalar arithmetic the two files use. *)

Class DType (F : Type) : Type := {
  fzero : F;
  fone : F;
  fadd : F -> F -> F;
  fsub : F -> F -> F;
  fmul : F -> F -> F;
  fdiv : F -> F -> F;
  fopp : F -> F;
  (** a Python number converted to the dtype *)
  lit : Q -> F;
  (** [x.clamp(lo, hi)] *)
  fclamp : F -> F -> F -> F;
  (** [x.round().astype("uint8")] *)
  fround_uint8 : F -> Z
}.

(** *** 32-bit IEEE floats, after the standard library's specification *)

Module Float32.

Definition prec : Z := 24.
Definition emax : Z := 128.

Definition of_Z (z : Z) : spec_float := binary_normalize prec emax z 0 false.

Definition add := SFadd prec emax.
Definition sub := SFsub prec emax.
Definition mul := SFmul prec emax.
Definition div := SFdiv prec emax.
Definition opp := SFopp.

Definition of_Q (q : Q) : spec_float := div (of_Z (Qnum q)) (of_Z (Zpos (Qden q))).

Definition clamp (lo hi x : spec_float) : spec_float :=
  if SFltb x lo then lo else if SFltb hi x then hi else x.

(** Nearest integer, ties to even, of [m * 2^e]. *)
Definition round_half_even (m : positive) (e : Z) : Z :=
  match e with
  | Zneg p =>
      let d := Z.pow_pos 2 p in
      let q := Z.div (Zpos m) d in
      let r := Z.modulo (Zpos m) d in
      match Z.compare (2 * r) d with
      | Lt => q
      | Gt => q + 1
      | Eq => if Z.even q then q else q + 1
      end
  | _ => Zpos m * Z.pow 2 e
  end%Z.

Definition round_uint8 (x : spec_float) : Z :=
  match x with
  | S754_finite s m e =>
      let z := round_half_even m e in
      Z.modulo (if s then Z.opp z else z) 256
  | _ => 0%Z
  end.

#[global] Instance dtype : DType spec_float := {|
  fzero := S754_zero false;
  fone := of_Z 1;
  fadd := add;
  fsub := sub;
  fmul := mul;
  fdiv := div;
  fopp := opp;
  lit := of_Q;
  fclamp := clamp;
  fround_uint8 := round_uint8
|}.

(** [2^e] for a small exponent. *)
Definition pow2 (e : Z) : spec_float := SFldexp prec emax (of_Z 1) e.

End Float32.

(** *** Exact rational arithmetic *)

Module Exact.

Definition clamp (lo hi x : Qc) : Qc :=
  if Qclt_le_dec x lo then lo else if Qclt_le_dec hi x then hi else x.

Definition round_uint8 (x : Qc) : Z :=
  let q := this x in
  let fl := Qfloor q in
  let z :=
    match Qcompare (q - inject_Z fl) (1 # 2) with
    | Lt => fl
    | Gt => (fl + 1)%Z
    | Eq => if Z.even fl then fl else (fl + 1)%Z
    end in
  Z.modulo z 256.

#[global] Instance dtype : DType Qc := {|
  fzero := Q2Qc 0;
  fone := 1%Qc;
  fadd := Qcplus;
  fsub := Qcminus;
  fmul := Qcmult;
  fdiv := Qcdiv;
  fopp := Qcopp;
  lit := Q2Qc;
  fclamp := clamp;
  fround_uint8 := round_uint8
|}.

End Exact.

(** ** Tensors and the torch operations the source uses *)

Section Torch.

Context {F : Type} `{DType F}.

(** A tensor is the list of its slices along dimension 0 (the batch), each
    slice flattened; torch tensors are rectangular, so the slices of one
    tensor have one length. *)
Definition Tensor : Type := list (list F).

(** The shape of a tensor in this model: the length of each slice. *)
Definition shape (x : Tensor) : list nat := map (@length F) x.

(** What a batch entry or a network input may be: pixels and latents are
    floating tensors, token ids are integer tensors. *)
Inductive AnyTensor : Type :=
| FloatTensor (x : Tensor)
| LongTensor (ids : list (list Z)).

(** The [timestep] argument of the denoiser: a batch of training timesteps
    in [forward], one inference timestep in [generate]. *)
Inductive Timestep : Type :=
| TimestepBatch (ts : list Z)
| TimestepScalar (t : F).

(** A PIL image, as its raw bytes. *)
Record Image : Type := fromarray { tobytes : list Z }.

(** [torch.cat(tensors)] along dimension 0. *)
Definition torch_cat (tensors : list Tensor) : Tensor := concat tensors.

(** [x.chunk(chunks)] along dimension 0: pieces of [ceil(n / chunks)] slices;
    an empty dimension still gives [chunks] (empty) pieces. *)
Fixpoint split_every (fuel size : nat) (x : Tensor) : list Tensor :=
  match fuel with
  | O => []
  | S fuel' =>
      match x with
      | [] => []
      | _ => firstn size x :: split_every fuel' size (skipn size x)
      end
  end.

Definition chunk (x : Tensor) (chunks : nat) : list Tensor :=
  let n := length x in
  let size := Nat.div (n + chunks - 1) chunks in
  if Nat.eqb n 0 then repeat [] chunks else split_every n size x.

(** [a, b = values]: unpacking into two names. *)
Definition unpack2 {A} (values : list A) : Result (A * A) :=
  match values with
  | [] => Raise (ValueError "not enough values to unpack (expected 2, got 0)")
  | [_] => Raise (ValueError "not enough values to unpack (expected 2, got 1)")
  | [a; b] => Ok (a, b)
  | _ :: _ :: _ :: _ =>
      Raise (ValueError "too many values to unpack (expected 2)")
  end.

Fixpoint map2 {A B C} (f : A -> B -> C) (l : list A) (l' : list B) : list C :=
  match l, l' with
  | a :: l, b :: l' => f a b :: map2 f l l'
  | _, _ => []
  end.

Definition same_lengths (a b : Tensor) : bool :=
  forallb (fun p => Nat.eqb (length (fst p)) (length (snd p))) (combine a b).

(** Element-wise binary operators: equal batch sizes pair up slice by slice,
    a batch of one is broadcast along dimension 0, anything else is torch's
    size-mismatch error. *)
Definition broadcast (a b : Tensor) : Result (Tensor * Tensor) :=
  let mismatch := RuntimeError "The size of tensor a must match the size of tensor b" in
  let paired :=
    if Nat.eqb (length a) (length b) then Some (a, b)
    else match a, b with
         | [ra], _ => Some (repeat ra (length b), b)
         | _, [rb] => Some (a, repeat rb (length a))
         | _, _ => None
         end in
  match paired with
  | Some (a', b') => if same_lengths a' b' then Ok (a', b') else Raise mismatch
  | None => Raise mismatch
  end.

Definition elementwise (op : F -> F -> F) (a b : Tensor) : Result Tensor :=
  match broadcast a b with
  | Ok (a', b') => Ok (map2 (map2 op) a' b')
  | Raise e => Raise e
  end.

Definition tensor_add := elementwise fadd.
Definition tensor_sub := elementwise fsub.

(** [s * x] and [x * s], [x / s], [x + s] with a number [s]. *)
Definition scalar_mul (s : F) (x : Tensor) : Tensor := map (map (fmul s)) x.
Definition mul_scalar (x : Tensor) (s : F) : Tensor := map (map (fun v => fmul v s)) x.
Definition div_scalar (x : Tensor) (s : F) : Tensor := map (map (fun v => fdiv v s)) x.
Definition add_scalar (x : Tensor) (s : F) : Tensor := map (map (fun v => fadd v s)) x.
Definition clamp (x : Tensor) (lo hi : F) : Tensor := map (map (fclamp lo hi)) x.

(** Line 187 of model.py:
    [noise_pred_uncond + guidance_scale * (noise_pred_text - noise_pred_uncond)]. *)
Definition classifier_free_guidance (guidance_scale : F)
    (noise_pred_uncond noise_pred_text : Tensor) : Result Tensor :=
  match tensor_sub noise_pred_text noise_pred_uncond with
  | Ok diff => tensor_add noise_pred_uncond (scalar_mul guidance_scale diff)
  | Raise e => Raise e
  end.

(** One element of line 187 at [guidance_scale = 1]: the unconditional
    value [u] cancels when [u + 1 * (c - u)], computed in the tensors'
    arithmetic, is [c]. *)
Definition cancels (u c : F) : Prop :=
  fadd u (fmul (lit 1%Q) (fsub c u)) = c.

End Torch.

Arguments torch_cat {F} tensors : simpl never.
Arguments chunk {F} x chunks : simpl never.
Arguments classifier_free_guidance {F _} guidance_scale noise_pred_uncond noise_pred_text
  : simpl never.
Arguments Tensor F : clear implicits.
Arguments AnyTensor F : clear implicits.
Arguments Timestep F : clear implicits.

(** ** Paths and the directory tree

    A path is the list of its components, as [pathlib] keeps it.  The tree
    is rooted at the working directory; the root directory of absolute
    paths is its entry [/].  Symbolic links and [..] components are not
    resolved. *)

(** The pieces of [s] between slashes. *)
Fixpoint components (s : string) (current : string) : list string :=
  match s with
  | EmptyString => [current]
  | String c s' =>
      if Ascii.eqb c "/"%char then current :: components s' EmptyString
      else components s' (current +:+ String c EmptyString)
  end.

(** The root of an absolute path: one slash, or two when the string starts
    with exactly two. *)
Definition anchor (s : string) : list string :=
  match s with
  | String "/" (String "/" (String "/" _)) => ["/"]
  | String "/" (String "/" _) => ["//"]
  | String "/" _ => ["/"]
  | _ => []
  end.

(** [Path(s).parts]: the root, if any, then the pieces between slashes
    without the empty ones and the [.] ones. *)
Definition Path (s : string) : list string :=
  anchor s
  ++ List.filter
       (fun c => negb (String.eqb c EmptyString) && negb (String.eqb c "."))
       (components s EmptyString).

(** A file (the driver writes images only) or a directory with its entries. *)
#[warnings="-register-all"] Inductive Node : Type :=
| File (image : Image)
| Dir (entries : gmap string Node).

(** The node a path leads to, if any. *)
Fixpoint walk (n : Node) (p : list string) : option Node :=
  match p with
  | [] => Some n
  | c :: p' =>
      match n with
      | Dir entries =>
          match entries !! c with
          | Some child => walk child p'
          | None => None
          end
      | File _ => None
      end
  end.

(** A chain of new, otherwise empty directories along [p]. *)
Fixpoint fresh_dirs (p : list string) : Node :=
  match p with
  | [] => Dir ∅
  | c :: p' => Dir {[ c := fresh_dirs p' ]}
  end.

(** [Path.mkdir(parents=True)] on the tree: the directory is created
    together with its missing ancestors; a path that exists is
    [FileExistsError], a file on the way [NotADirectoryError]. *)
Fixpoint make_dirs (n : Node) (p : list string) : Result Node :=
  match p with
  | [] => Raise (OSError "FileExistsError")
  | c :: p' =>
      match n with
      | File _ => Raise (OSError "NotADirectoryError")
      | Dir entries =>
          match entries !! c with
          | None => Ok (Dir (<[c := fresh_dirs p']> entries))
          | Some child =>
              match make_dirs child p' with
              | Ok child' => Ok (Dir (<[c := child']> entries))
              | Raise e => Raise e
              end
          end
      end
  end.

(** Writing a file at [p]: its directory must exist, an existing file is
    replaced. *)
Fixpoint write_file (n : Node) (p : list string) (image : Image) : Result Node :=
  match p with
  | [] =>
      match n with
      | File _ => Ok (File image)
      | Dir _ => Raise (OSError "IsADirectoryError")
      end
  | c :: p' =>
      match n with
      | File _ => Raise (OSError "NotADirectoryError")
      | Dir entries =>
          match entries !! c with
          | Some child =>
              match write_file child p' image with
              | Ok child' => Ok (Dir (<[c := child']> entries))
              | Raise e => Raise e
              end
          | None =>
              match p' with
              | [] => Ok (Dir (<[c := File image]> entries))
              | _ :: _ => Raise (OSError "FileNotFoundError")
              end
          end
      end
  end.



(** ** torchvision's [to_pil_image]

    What the function may be handed: an array of pixel values (a tensor or
    an ndarray), which it converts, or anything else, a PIL image included,
    which it rejects. *)
Inductive Pic : Type :=
| PicArray (pixels : list Z)
| PicImage (image : Image).

Definition to_pil_image (pic : Pic) : Result Image :=
  match pic with
  | PicArray pixels => Ok (fromarray pixels)
  | PicImage _ =>
      Raise (TypeError
        "pic should be Tensor or ndarray. Got <class 'PIL.Image.Image'>.")
  end.

(** ** The collaborators of the wrapper *)

Section Model.

Context {F : Type} `{DType F}.

(** [Rng] is the state of torch's global generator, [Sched] the state of the
    inference scheduler object (its timesteps, sigmas and history). *)
Context {Rng Sched : Type}.

(** The random-number side of torch. *)
Record Torch : Type := {
  (** [torch.manual_seed(seed)]: the state depends on the seed alone *)
  manual_seed : Z -> Rng;
  (** one standard-normal draw *)
  normal : Rng -> F * Rng;
  (** one uniform draw in [low, high) *)
  uniform_int : Z -> Z -> Rng -> Z * Rng;
  (** [x.permute(0, 2, 3, 1)] on one slice: channels last *)
  channels_last : list F -> list F
}.

Record UNet : Type := {
  (** [unet(sample, timestep, encoder_hidden_states=...).sample], or the
      exception the network raises: it takes one timestep and one
      conditioning slice per sample slice (model.py, line 17) *)
  unet_call : Tensor F -> Timestep F -> Tensor F -> Result (Tensor F);
  in_channels : nat;
  sample_size : nat
}.

Record Vae : Type := {
  (** [vae.encode(x)['latent_dist'].sample().data]: sampling draws noise *)
  encode_sample : AnyTensor F -> Rng -> Tensor F * Rng;
  (** [vae.decode(z).sample] *)
  decode : Tensor F -> Tensor F
}.

Definition TextEncoder : Type := AnyTensor F -> Tensor F.

(** [tokenizer(prompts, padding="max_length", max_length=..., truncation=...)
    .input_ids] *)
Definition Tokenizer : Type := list string -> bool -> list (list Z).

Record NoiseScheduler : Type := {
  prediction_type : string;
  (** [len(noise_scheduler)] *)
  num_train_timesteps : Z;
  add_noise : Tensor F -> Tensor F -> list Z -> Tensor F;
  get_velocity : Tensor F -> Tensor F -> list Z -> Tensor F
}.

Record InferenceScheduler : Type := {
  set_timesteps : nat -> Sched -> Sched;
  timesteps : Sched -> list F;
  init_noise_sigma : Sched -> F;
  scale_model_input : Tensor F -> F -> Sched -> Tensor F * Sched;
  (** [step(model_output, timestep, sample).prev_sample] *)
  step : Tensor F -> F -> Tensor F -> Sched -> Tensor F * Sched
}.

Record Pipeline : Type := {
  pipeline_text_encoder : TextEncoder;
  pipeline_vae : Vae;
  pipeline_unet : UNet
}.

(** The attributes [StableDiffusion.__init__] assigns (the metric
    collections, which no operation below reads, are left out). *)
Record StableDiffusion : Type := {
  unet : UNet;
  vae : Vae;
  text_encoder : TextEncoder;
  tokenizer : Tokenizer;
  noise_scheduler : NoiseScheduler;
  inference_scheduler : InferenceScheduler;
  loss_fn : Tensor F -> Tensor F -> F;
  pipeline : Pipeline;
  image_key : string;
  caption_key : string
}.

(** ** The world and the log of calls *)

Record World : Type := {
  rng : Rng;
  sched : Sched;
  (** the directory tree *)
  fs : Node;
  (** [torch.cuda.is_available()] *)
  cuda_is_available : bool;
  (** [dist.get_world_size()] *)
  world_size : nat;
  (** [is_xformers_available()] *)
  xformers_available : bool
}.

Definition set_rng (r : Rng) (w : World) : World :=
  {| rng := r; sched := sched w; fs := fs w;
     cuda_is_available := cuda_is_available w; world_size := world_size w;
     xformers_available := xformers_available w |}.

Definition set_sched (s : Sched) (w : World) : World :=
  {| rng := rng w; sched := s; fs := fs w;
     cuda_is_available := cuda_is_available w; world_size := world_size w;
     xformers_available := xformers_available w |}.

Definition set_fs (f : Node) (w : World) : World :=
  {| rng := rng w; sched := sched w; fs := f;
     cuda_is_available := cuda_is_available w; world_size := world_size w;
     xformers_available := xformers_available w |}.

Inductive Event : Type :=
(* the networks and schedulers *)
| EvVaeEncode (x : AnyTensor F)
| EvVaeDecode (z : Tensor F)
| EvTokenizer (prompts : list string)
| EvTextEncoder (ids : AnyTensor F)
| EvAddNoise (latents noise : Tensor F) (ts : list Z)
| EvGetVelocity (latents noise : Tensor F) (ts : list Z)
| EvUnet (x : Tensor F) (t : Timestep F) (conditioning : Tensor F)
    (out : Result (Tensor F))
| EvSetTimesteps (n : nat)
| EvScaleModelInput (x : Tensor F) (t : F) (out : Tensor F)
| EvStep (model_output : Tensor F) (t : F) (sample : Tensor F)
(* the hub *)
| EvFromPretrained (class name subfolder : string)
| EvEnableXformers
(* the driver *)
| EvSeedAll (seed : Z)
| EvInitializeDist (device : string)
| EvPrint (line : string)
| EvMkdir (path : list string)
| EvPromptDataloader (prompts : list string) (batch_size : nat)
| EvSave (path : list string)
| EvDreamboothDataloader
| EvOptimizer
| EvLogger (name : string)
| EvTrainer
| EvLogConfig
| EvFit.

Definition Py (A : Type) : Type := M World Event A.

Variable torch : Torch.

(** *** Random tensors *)

Fixpoint draws (n : nat) (g : Rng) : list F * Rng :=
  match n with
  | O => ([], g)
  | S n' =>
      let (v, g1) := normal torch g in
      let (vs, g2) := draws n' g1 in
      (v :: vs, g2)
  end.

Fixpoint draw_slices (sizes : list nat) (g : Rng) : Tensor F * Rng :=
  match sizes with
  | [] => ([], g)
  | n :: sizes' =>
      let (row, g1) := draws n g in
      let (rows, g2) := draw_slices sizes' g1 in
      (row :: rows, g2)
  end.

(** [torch.randn(shape, generator=<the global generator>)] *)
Definition randn (shape : list nat) : Py (Tensor F) :=
  fun w =>
    let (x, g) :=
      match shape with
      | [] => draw_slices [1%nat] (rng w)
      | n :: rest => draw_slices (repeat (fold_right Nat.mul 1%nat rest) n) (rng w)
      end in
    MkOutcome (Ok x) (set_rng g w) [].

(** [torch.randn_like(x)] *)
Definition randn_like (x : Tensor F) : Py (Tensor F) :=
  fun w =>
    let (y, g) := draw_slices (map (@length F) x) (rng w) in
    MkOutcome (Ok y) (set_rng g w) [].

Fixpoint draw_ints (low high : Z) (n : nat) (g : Rng) : list Z * Rng :=
  match n with
  | O => ([], g)
  | S n' =>
      let (v, g1) := uniform_int torch low high g in
      let (vs, g2) := draw_ints low high n' g1 in
      (v :: vs, g2)
  end.

(** [torch.randint(low, high, (n,))] *)
Definition randint (low high : Z) (n : nat) : Py (list Z) :=
  fun w =>
    let (ts, g) := draw_ints low high n (rng w) in
    MkOutcome (Ok ts) (set_rng g w) [].

(** *** Calls on the collaborators, logged *)

Definition call_vae_encode (self : StableDiffusion) (x : AnyTensor F) : Py (Tensor F) :=
  fun w =>
    let (z, g) := encode_sample (vae self) x (rng w) in
    MkOutcome (Ok z) (set_rng g w) [EvVaeEncode x].

Definition call_vae_decode (self : StableDiffusion) (z : Tensor F) : Py (Tensor F) :=
  emit (EvVaeDecode z) ;; ret (decode (vae self) z).

Definition call_tokenizer (self : StableDiffusion) (prompts : list string)
    (truncation : bool) : Py (list (list Z)) :=
  emit (EvTokenizer prompts) ;; ret (tokenizer self prompts truncation).

Definition call_text_encoder (self : StableDiffusion) (ids : AnyTensor F) : Py (Tensor F) :=
  emit (EvTextEncoder ids) ;; ret (text_encoder self ids).

Definition call_add_noise (self : StableDiffusion) (latents noise : Tensor F)
    (ts : list Z) : Py (Tensor F) :=
  emit (EvAddNoise latents noise ts) ;;
  ret (add_noise (noise_scheduler self) latents noise ts).

Definition call_get_velocity (self : StableDiffusion) (latents noise : Tensor F)
    (ts : list Z) : Py (Tensor F) :=
  emit (EvGetVelocity latents noise ts) ;;
  ret (get_velocity (noise_scheduler self) latents noise ts).

Definition call_unet (self : StableDiffusion) (x : Tensor F) (t : Timestep F)
    (conditioning : Tensor F) : Py (Tensor F) :=
  let out := unet_call (unet self) x t conditioning in
  emit (EvUnet x t conditioning out) ;; lift out.

Definition call_set_timesteps (self : StableDiffusion) (n : nat) : Py unit :=
  emit (EvSetTimesteps n) ;;
  modify (fun w => set_sched (set_timesteps (inference_scheduler self) n (sched w)) w).

Definition call_scale_model_input (self : StableDiffusion) (x : Tensor F) (t : F)
    : Py (Tensor F) :=
  fun w =>
    let (y, s) := scale_model_input (inference_scheduler self) x t (sched w) in
    MkOutcome (Ok y) (set_sched s w) [EvScaleModelInput x t y].

Definition call_step (self : StableDiffusion) (model_output : Tensor F) (t : F)
    (sample : Tensor F) : Py (Tensor F) :=
  fun w =>
    let (prev_sample, s) :=
      step (inference_scheduler self) model_output t sample (sched w) in
    MkOutcome (Ok prev_sample) (set_sched s w) [EvStep model_output t sample].

(** [d[key]] on a dict. *)
Definition getitem {V} (d : gmap string V) (key : string) : Py V :=
  match d !! key with
  | Some v => ret v
  | None => raise (KeyError key)
  end.

(** ** model.py: [StableDiffusion] *)

(** [forward(self, batch)] *)
Definition forward (self : StableDiffusion) (batch : gmap string (AnyTensor F))
    : Py (Tensor F * Tensor F) :=
  let! inputs := getitem batch (image_key self) in
  let! conditioning := getitem batch (caption_key self) in
  let! latents := call_vae_encode self inputs in
  let latents := mul_scalar latents (lit 0.18215%Q) in
  let! conditioning := call_text_encoder self conditioning in
  let! timesteps :=
    randint 0 (num_train_timesteps (noise_scheduler self)) (length latents) in
  let! noise := randn_like latents in
  let! noised_latents := call_add_noise self latents noise timesteps in
  let! target :=
    if String.eqb (prediction_type (noise_scheduler self)) "epsilon" then
      ret noise
    else if String.eqb (prediction_type (noise_scheduler self)) "v_prediction" then
      call_get_velocity self latents noise timesteps
    else
      raise (ValueError ("Unknown prediction type "
                         +:+ prediction_type (noise_scheduler self))) in
  let! sample := call_unet self noised_latents (TimestepBatch timesteps) conditioning in
  ret (sample, target).

(** [loss(self, outputs, batch)] *)
Definition loss (self : StableDiffusion) (outputs : Tensor F * Tensor F) : F :=
  loss_fn self (fst outputs) (snd outputs).

(** [eval_forward(self, batch, outputs=None)] *)
Definition eval_forward (self : StableDiffusion) (batch : gmap string (AnyTensor F))
    (outputs : option (Tensor F * Tensor F)) : Py (Tensor F * Tensor F) :=
  match outputs with
  | Some o => ret o
  | None => forward self batch
  end.

(** [self.vae_scale_factor]: [__init__] assigns no such attribute and no
    base class defines one, so the lookup fails. *)
Definition vae_scale_factor (self : StableDiffusion) : Py nat :=
  raise (AttributeError "'StableDiffusion' object has no attribute 'vae_scale_factor'").

(** [value or default]: the default is evaluated only when [value] is
    [None] or [0]. *)
Definition py_or (value : option nat) (default : Py nat) : Py nat :=
  match value with
  | Some (S n) => ret (S n)
  | _ => default
  end.

(** The body of the [for t in ...timesteps] loop of [generate], iterated. *)
Fixpoint backward_diffusion (self : StableDiffusion) (text_embeddings : Tensor F)
    (guidance_scale : F) (ts : list F) (latents : Tensor F) : Py (Tensor F) :=
  match ts with
  | [] => ret latents
  | t :: ts' =>
      let latent_model_input := torch_cat [latents; latents] in
      let! latent_model_input := call_scale_model_input self latent_model_input t in
      let! noise_pred :=
        call_unet self latent_model_input (TimestepScalar t) text_embeddings in
      let! halves := lift (unpack2 (chunk noise_pred 2)) in
      let noise_pred_uncond := fst halves in
      let noise_pred_text := snd halves in
      let! noise_pred :=
        lift (classifier_free_guidance guidance_scale noise_pred_uncond noise_pred_text) in
      let! latents := call_step self noise_pred t latents in
      backward_diffusion self text_embeddings guidance_scale ts' latents
  end.

(** [generate(self, prompt, height, width, num_inference_steps,
    guidance_scale, negative_prompt, num_images_per_prompt, eta)].  Devices
    are not modelled: the model's tensors live where torch's global
    generator does. *)
Definition generate (self : StableDiffusion) (prompt : list string)
    (height width : option nat) (num_inference_steps : nat) (guidance_scale : Q)
    (negative_prompt : option (list string)) (num_images_per_prompt : nat) (eta : Q)
    : Py (list Image) :=
  let batch_size := 1%nat in
  let! height :=
    py_or height
      (let! factor := vae_scale_factor self in
       ret (sample_size (unet self) * factor)%nat) in
  let! width :=
    py_or width
      (let! factor := vae_scale_factor self in
       ret (sample_size (unet self) * factor)%nat) in
  modify (set_rng (manual_seed torch 32)) ;;
  let! text_input := call_tokenizer self prompt true in
  let! uncond_input := call_tokenizer self (repeat EmptyString batch_size) false in
  let! text_embeddings := call_text_encoder self (LongTensor text_input) in
  let! uncond_embeddings := call_text_encoder self (LongTensor uncond_input) in
  let text_embeddings := torch_cat [uncond_embeddings; text_embeddings] in
  let! latents :=
    randn [batch_size; in_channels (unet self);
           Nat.div height 8; Nat.div width 8] in
  call_set_timesteps self num_inference_steps ;;
  let! sigma := gets (fun w => init_noise_sigma (inference_scheduler self) (sched w)) in
  let latents := mul_scalar latents sigma in
  let! ts := gets (fun w => timesteps (inference_scheduler self) (sched w)) in
  let! latents :=
    backward_diffusion self text_embeddings (lit guidance_scale) ts latents in
  let latents := scalar_mul (lit (1 / 0.18215)%Q) latents in
  let! image := call_vae_decode self latents in
  let image := clamp (add_scalar (div_scalar image (lit 2%Q)) (lit 0.5%Q))
                     (lit 0%Q) (lit 1%Q) in
  let image := map (channels_last torch) image in
  let images := map (map (fun v => fround_uint8 (fmul v (lit 255%Q)))) image in
  ret (map fromarray images).

(** ** Calling a Python function with keyword arguments

    [params] lists the parameters with whether each has a default; a call
    passes [npos] positional arguments and the keywords [kwargs]. *)
Definition bind_arguments (fname : string) (params : list (string * bool))
    (npos : nat) (kwargs : list string) : Result unit :=
  let names := map fst params in
  let by_position := firstn npos names in
  let is_in (l : list string) (k : string) := existsb (String.eqb k) l in
  if Nat.ltb (length params) npos then
    Raise (TypeError (fname +:+ "() takes " +:+ pretty (length params)
                      +:+ " positional arguments but " +:+ pretty npos
                      +:+ " were given"))
  else
    match find (fun k => negb (is_in names k)) kwargs with
    | Some k =>
        Raise (TypeError (fname +:+ "() got an unexpected keyword argument '"
                          +:+ k +:+ "'"))
    | None =>
        match find (is_in by_position) kwargs with
        | Some k =>
            Raise (TypeError (fname +:+ "() got multiple values for argument '"
                              +:+ k +:+ "'"))
        | None =>
            match find (fun p => negb (snd p) && negb (is_in by_position (fst p))
                                 && negb (is_in kwargs (fst p))) params with
            | Some p =>
                Raise (TypeError (fname +:+ "() missing 1 required positional argument: '"
                                  +:+ fst p +:+ "'"))
            | None => Ok tt
            end
        end
    end.

Definition py_call {A} (fname : string) (params : list (string * bool))
    (npos : nat) (kwargs : list string) (body : Py A) : Py A :=
  lift (bind_arguments fname params npos kwargs) ;; body.

(** The keywords of the driver's two calls into model.py (main.py, lines
    45-51 and line 71). *)
Definition main_build_keywords : list string :=
  ["model_name_or_path"; "train_text_encoder"; "train_unet";
   "num_images_per_prompt"; "image_key"; "caption_key"].

Definition main_generate_keywords : list string :=
  ["num_images_per_prompt"; "disable_progress_bar"].

(** The signature of [generate], after [self]. *)
Definition generate_parameters : list (string * bool) :=
  [("prompt", false); ("height", true); ("width", true);
   ("num_inference_steps", true); ("guidance_scale", true);
   ("negative_prompt", true); ("num_images_per_prompt", true); ("eta", true)].

(** ** model.py: [build_stable_diffusion_model] *)

(** The model hub: [Class.from_pretrained(name, subfolder=...)]. *)
Record Hub : Type := {
  UNet2DConditionModel : string -> string -> UNet;
  enable_xformers_memory_efficient_attention : UNet -> UNet;
  AutoencoderKL : string -> string -> Vae;
  CLIPTextModel : string -> string -> TextEncoder;
  DDPMScheduler : string -> string -> NoiseScheduler;
  (** the scheduler object and its initial state *)
  LMSDiscreteScheduler : string -> string -> InferenceScheduler * Sched;
  CLIPTokenizer : string -> string -> Tokenizer;
  StableDiffusionPipeline : string -> TextEncoder -> Vae -> UNet -> Pipeline;
  (** [F.mse_loss], the default [loss_fn] *)
  mse_loss : Tensor F -> Tensor F -> F
}.

Variable hub : Hub.

Definition build_stable_diffusion_model_parameters : list (string * bool) :=
  [("model_name_or_path", false); ("train_text_encoder", true);
   ("image_key", true); ("caption_key", true)].

(** [train_text_encoder] only decides whether [__init__] freezes the text
    encoder's weights, which none of the operations above reads. *)
Definition build_stable_diffusion_model (model_name_or_path : string)
    (train_text_encoder : bool) (image_key caption_key : string)
    : Py StableDiffusion :=
  let model_name_or_path := "CompVis/stable-diffusion-v1-4" in
  emit (EvFromPretrained "UNet2DConditionModel" model_name_or_path "unet") ;;
  let unet := UNet2DConditionModel hub model_name_or_path "unet" in
  let! xformers := gets xformers_available in
  let! unet :=
    if (xformers : bool) then
      emit EvEnableXformers ;;
      ret (enable_xformers_memory_efficient_attention hub unet)
    else ret unet in
  emit (EvFromPretrained "AutoencoderKL" model_name_or_path "vae") ;;
  let vae := AutoencoderKL hub model_name_or_path "vae" in
  emit (EvFromPretrained "CLIPTextModel" model_name_or_path "text_encoder") ;;
  let text_encoder := CLIPTextModel hub model_name_or_path "text_encoder" in
  emit (EvFromPretrained "DDPMScheduler" model_name_or_path "scheduler") ;;
  let noise_scheduler := DDPMScheduler hub model_name_or_path "scheduler" in
  emit (EvFromPretrained "LMSDiscreteScheduler" model_name_or_path "scheduler") ;;
  let inference_scheduler := LMSDiscreteScheduler hub model_name_or_path "scheduler" in
  modify (set_sched (snd inference_scheduler)) ;;
  emit (EvFromPretrained "CLIPTokenizer" model_name_or_path "tokenizer") ;;
  let tokenizer := CLIPTokenizer hub model_name_or_path "tokenizer" in
  emit (EvFromPretrained "StableDiffusionPipeline" model_name_or_path EmptyString) ;;
  let pipeline :=
    StableDiffusionPipeline hub model_name_or_path text_encoder vae unet in
  ret {| unet := unet;
         vae := vae;
         text_encoder := text_encoder;
         tokenizer := tokenizer;
         noise_scheduler := noise_scheduler;
         inference_scheduler := fst inference_scheduler;
         loss_fn := mse_loss hub;
         pipeline := pipeline;
         image_key := image_key;
         caption_key := caption_key |}.

(** ** main.py: the DreamBooth driver *)

(** The quotation mark inside the message of the driver's ValueError. *)
Definition double_quote : string := String (Ascii.ascii_of_nat 34) EmptyString.

(** The message of the driver's ValueError (main.py, line 36). *)
Definition grad_accum_message : string :=
  "grad_accum=" +:+ double_quote +:+ "auto" +:+ double_quote
  +:+ " requires training with a GPU; please specify grad_accum as an integer".

(** [config.grad_accum]: the string ['auto'] or an integer. *)
Inductive GradAccum : Type :=
| GradAccumAuto
| GradAccumInt (n : nat).

Record ModelConfig : Type := {
  name : string;
  train_text_encoder : bool;
  train_unet : bool;
  num_images_per_prompt : nat;
  model_image_key : string;
  model_caption_key : string
}.

Record DatasetConfig : Type := {
  class_data_root : string;
  class_prompt : string;
  instance_data_root : string;
  instance_prompt : string;
  eval_prompts : list string
}.

Record Config : Type := {
  seed : Z;
  grad_accum : GradAccum;
  global_train_batch_size : nat;
  global_eval_batch_size : nat;
  model : ModelConfig;
  use_prior_preservation : bool;
  num_class_images : Z;
  dataset : DatasetConfig;
  use_ema : bool;
  loggers : list string
}.

(** One batch of the prompt dataloader: [example['prompt']] and
    [example['index']]. *)
Record Example : Type := {
  example_prompt : list string;
  example_index : list nat
}.

(** The driver's helper modules ([examples.common], [data], [hashlib]);
    [calculate_batch_size_info] is given the world size it reads. *)
Record Helpers : Type := {
  calculate_batch_size_info : nat -> nat -> Result nat;
  build_prompt_dataloader : list string -> nat -> list Example;
  sha1_hexdigest : list Z -> string
}.

Variable helpers : Helpers.

(** [path.exists()] *)
Definition path_exists (path : list string) : Py bool :=
  gets (fun w => bool_decide (is_Some (walk (fs w) path))).

(** [path.mkdir(parents=True)] *)
Definition mkdir_parents (path : list string) : Py unit :=
  emit (EvMkdir path) ;;
  let! tree := gets fs in
  let! tree := lift (make_dirs tree path) in
  modify (set_fs tree).

(** [list(path.iterdir())]: the names of the entries, files and directories
    alike. *)
Definition iterdir (path : list string) : Py (list string) :=
  let! node := gets (fun w => walk (fs w) path) in
  match node with
  | Some (Dir entries) => ret (map fst (map_to_list entries))
  | Some (File _) => raise (OSError "NotADirectoryError")
  | None => raise (OSError "FileNotFoundError")
  end.

(** [image.save(path)] *)
Definition save (path : list string) (image : Image) : Py unit :=
  emit (EvSave path) ;;
  let! tree := gets fs in
  let! tree := lift (write_file tree path image) in
  modify (set_fs tree).

(** [l[i]] on a list. *)
Definition list_getitem {A} (l : list A) (i : nat) : Py A :=
  match nth_error l i with
  | Some a => ret a
  | None => raise (IndexError "list index out of range")
  end.

(** The name the pre-generation step gives an image (main.py, line 75):
    [f"{example['index'][i] + cur_class_images}-{hash_image}.jpg"]. *)
Definition class_image_filename (cur_class_images index : nat) (image : Image)
    : string :=
  pretty (index + cur_class_images)%nat +:+ "-"
  +:+ sha1_hexdigest helpers (tobytes image) +:+ ".jpg".

(** [for i, image in enumerate(images): ...] of the pre-generation step.
    The images are what [generate] returned: PIL images. *)
Fixpoint save_class_images (class_images_dir : list string) (example : Example)
    (cur_class_images : nat) (i : nat) (images : list Image) : Py unit :=
  match images with
  | [] => ret tt
  | image :: images' =>
      let! image := lift (to_pil_image (PicImage image)) in
      let! index := list_getitem (example_index example) i in
      let image_filename :=
        class_images_dir ++ Path (class_image_filename cur_class_images index image) in
      save image_filename image ;;
      save_class_images class_images_dir example cur_class_images (S i) images'
  end.

(** [for example in tqdm(prompt_dataloader): ...] *)
Fixpoint generate_class_images (model : StableDiffusion)
    (class_images_dir : list string)
    (cur_class_images : nat) (prompt_dataloader : list Example) : Py unit :=
  match prompt_dataloader with
  | [] => ret tt
  | example :: rest =>
      let! images :=
        py_call "generate" generate_parameters 1 main_generate_keywords
          (generate model (example_prompt example) None None 50 7.5%Q None 1 1%Q) in
      save_class_images class_images_dir example cur_class_images 0 images ;;
      generate_class_images model class_images_dir cur_class_images rest
  end.

(** The [if config.use_prior_preservation:] block of [main]. *)
Definition prior_preservation (config : Config) (model : StableDiffusion)
    (eval_device_batch_size : nat) : Py unit :=
  if use_prior_preservation config then
    let class_images_dir := Path (class_data_root (dataset config)) in
    let! exists_ := path_exists class_images_dir in
    (if (exists_ : bool) then ret tt else mkdir_parents class_images_dir) ;;
    let! entries := iterdir class_images_dir in
    let cur_class_images := length entries in
    let images_to_generate := (num_class_images config - Z.of_nat cur_class_images)%Z in
    if (Z.of_nat cur_class_images <? num_class_images config)%Z then
      let prompts := repeat (class_prompt (dataset config)) (Z.to_nat images_to_generate) in
      emit (EvPromptDataloader prompts eval_device_batch_size) ;;
      let prompt_dataloader :=
        build_prompt_dataloader helpers prompts eval_device_batch_size in
      generate_class_images model class_images_dir cur_class_images prompt_dataloader
    else ret tt
  else ret tt.

Fixpoint build_loggers (names : list string) : Py unit :=
  match names with
  | [] => ret tt
  | n :: names' => emit (EvLogger n) ;; build_loggers names'
  end.

(** [reproducibility.seed_all(seed)]: a seed outside [0, 2^32 - 1] is
    rejected (numpy takes no other); otherwise the generators are seeded,
    torch's global generator among them. *)
Definition MAX_SEED : Z := 4294967295.

Definition valid_seed (seed : Z) : bool :=
  (0 <=? seed)%Z && (seed <=? MAX_SEED)%Z.

Definition seed_all (seed : Z) : Py unit :=
  emit (EvSeedAll seed) ;;
  if valid_seed seed then modify (set_rng (manual_seed torch seed))
  else raise (ValueError ("Seed " +:+ pretty seed
                          +:+ " is invalid. It must be on [0; 2^32 - 1]")).

(** [main(config)] *)
Definition main (config : Config) : Py unit :=
  seed_all (seed config) ;;
  let! cuda := gets cuda_is_available in
  let device := if (cuda : bool) then "gpu" else "cpu" in
  let! ws := gets world_size in
  (if Nat.ltb 1 ws then emit (EvInitializeDist device) else ret tt) ;;
  (match grad_accum config with
   | GradAccumAuto =>
       if String.eqb device "cpu" then
         raise (ValueError grad_accum_message)
       else ret tt
   | GradAccumInt _ => ret tt
   end) ;;
  let! train_device_batch_size :=
    lift (calculate_batch_size_info helpers (global_train_batch_size config) ws) in
  let! eval_device_batch_size :=
    lift (calculate_batch_size_info helpers (global_eval_batch_size config) ws) in
  emit (EvPrint "Building Composer model") ;;
  let! model :=
    py_call "build_stable_diffusion_model" build_stable_diffusion_model_parameters 0
      main_build_keywords
      (build_stable_diffusion_model (name (model config))
         (train_text_encoder (model config))
         (model_image_key (model config)) (model_caption_key (model config))) in
  prior_preservation config model eval_device_batch_size ;;
  emit (EvPrint "Building dataloaders") ;;
  emit EvDreamboothDataloader ;;
  emit (EvPromptDataloader (eval_prompts (dataset config)) eval_device_batch_size) ;;
  emit (EvPrint "Building optimizer and learning rate scheduler") ;;
  emit EvOptimizer ;;
  emit (EvPrint "Building loggers") ;;
  build_loggers (loggers config) ;;
  emit (EvPrint "Building Speed, LR, and Memory monitoring callbacks") ;;
  emit (EvPrint "Building algorithms") ;;
  emit (EvPrint "Building Trainer") ;;
  emit EvTrainer ;;
  emit (EvPrint "Logging config") ;;
  emit EvLogConfig ;;
  emit (EvPrint "Train!") ;;
  emit EvFit.

(** *** Parts of a call of [generate], named for the properties below *)

(** The text conditioning of a call: the embedding of the empty prompt,
    then the embeddings of the prompts. *)
Definition guidance_embeddings (self : StableDiffusion)
    (prompt : list string) : Tensor F :=
  torch_cat
    [text_encoder self (LongTensor (tokenizer self [EmptyString] false));
     text_encoder self (LongTensor (tokenizer self prompt true))].

(** The number of elements of the one latent slice. *)
Definition latent_size (self : StableDiffusion) (height width : nat)
    : nat :=
  fold_right Nat.mul 1%nat
    [in_channels (unet self); Nat.div height 8; Nat.div width 8].

(** The log of a call before its loop. *)
Definition generate_preamble (self : StableDiffusion)
    (prompt : list string) (num_inference_steps : nat) : list Event :=
  [EvTokenizer prompt; EvTokenizer [EmptyString];
   EvTextEncoder (LongTensor (tokenizer self prompt true));
   EvTextEncoder (LongTensor (tokenizer self [EmptyString] false));
   EvSetTimesteps num_inference_steps].

(** The images made of the final latents. *)
Definition decode_images (self : StableDiffusion)
    (latents : Tensor F) : list Image :=
  map fromarray
    (map (map (fun v => fround_uint8 (fmul v (lit 255%Q))))
       (map (channels_last torch)
          (clamp (add_scalar
                    (div_scalar
                       (decode (vae self) (scalar_mul (lit (1 / 0.18215)%Q) latents))
                       (lit 2%Q))
                    (lit 0.5%Q))
             (lit 0%Q) (lit 1%Q)))).

(** No character of [s] is a hyphen. *)
Fixpoint no_dash (s : string) : bool :=
  match s with
  | EmptyString => true
  | String c s' => negb (Ascii.eqb c "-"%char) && no_dash s'
  end.

(** *** The script's entry (main.py, lines 155-164)

    [DictConfig] is what OmegaConf parses before the merge.  The yaml files
    on disk are a map from paths to what [OmegaConf.load] makes of each (a
    configuration or a parse error); the program never writes them.
    [load_image] is what it makes of a file of the directory tree. *)
Context {DictConfig : Type}.

Record OmegaConf : Type := {
  yaml_files : gmap string (Result DictConfig);
  load_image : Image -> Result DictConfig;
  from_cli : list string -> Result DictConfig;
  merge : DictConfig -> DictConfig -> Result Config
}.

Variable omegaconf : OmegaConf.

(** The message of the entry's ValueError (line 157). *)
Definition usage_message : string :=
  "The first argument must be a path to a yaml config.".

(** [os.path.exists(path)]: a yaml file or a node of the tree; the empty
    string names nothing. *)
Definition os_path_exists (path : string) (w : World) : bool :=
  negb (String.eqb path EmptyString)
  && (bool_decide (is_Some (yaml_files omegaconf !! path))
      || bool_decide (is_Some (walk (fs w) (Path path)))).

(** [with open(yaml_path) as f: yaml_config = OmegaConf.load(f)] *)
Definition load_yaml (yaml_path : string) : Py DictConfig :=
  match yaml_files omegaconf !! yaml_path with
  | Some parsed => lift parsed
  | None =>
      let! node := gets (fun w => walk (fs w) (Path yaml_path)) in
      match node with
      | Some (File image) => lift (load_image omegaconf image)
      | Some (Dir _) => raise (OSError "IsADirectoryError")
      | None => raise (OSError "FileNotFoundError")
      end
  end.

(** The [if __name__ == '__main__':] block, run on [sys.argv]. *)
Definition script (argv : list string) : Py unit :=
  match argv with
  | _ :: yaml_path :: args_list =>
      let! found := gets (os_path_exists yaml_path) in
      if (found : bool) then
        let! yaml_config := load_yaml yaml_path in
        let! cli_config := lift (from_cli omegaconf args_list) in
        let! config := lift (merge omegaconf yaml_config cli_config) in
        main config
      else raise (ValueError usage_message)
  | _ => raise (ValueError usage_message)
  end.

End Model.

Arguments Torch F Rng : clear implicits.
Arguments UNet F : clear implicits.
Arguments Vae F Rng : clear implicits.
Arguments TextEncoder F : clear implicits.
Arguments NoiseScheduler F : clear implicits.
Arguments InferenceScheduler F Sched : clear implicits.
Arguments Pipeline F Rng : clear implicits.
Arguments StableDiffusion F Rng Sched : clear implicits.
Arguments World Rng Sched : clear implicits.
Arguments Event F : clear implicits.
Arguments Hub F Rng Sched : clear implicits.
Arguments OmegaConf DictConfig : clear implicits.

(** ** A small concrete model

    Single-channel 32-bit tensors, a linear congruential generator, a
    denoiser that returns its input when the batch sizes of its arguments
    agree and raises otherwise, a scheduler that subtracts the prediction
    from the sample.  Used to run the definitions above. *)

Module Small.

Import Float32.

Definition next (g : Z) : Z := ((g * 7 + 3) mod 101)%Z.

Definition small_torch : Torch spec_float Z := {|
  manual_seed := fun seed => seed;
  normal := fun g => (of_Z (g mod 5 - 2), next g);
  uniform_int := fun low high g => ((low + g mod (high - low))%Z, next g);
  channels_last := fun slice => slice
|}.

Definition total (r : Result (Tensor spec_float)) (otherwise : Tensor spec_float)
    : Tensor spec_float :=
  match r with Ok x => x | Raise _ => otherwise end.

(** [y] when it has the shape of [sample], [sample] otherwise. *)
Definition keep_shape (sample y : Tensor spec_float) : Tensor spec_float :=
  if decide (shape y = shape sample) then y else sample.

(** The denoiser's check of its arguments: one timestep and one
    conditioning slice per sample slice. *)
Definition batches_agree (x : Tensor spec_float) (t : Timestep spec_float)
    (conditioning : Tensor spec_float) : bool :=
  Nat.eqb (length x) (length conditioning)
  && match t with
     | TimestepBatch ts => Nat.eqb (length ts) (length x)
     | TimestepScalar _ => true
     end.

Definition batch_mismatch : Exn :=
  RuntimeError "sample and encoder_hidden_states differ in batch size".

Definition small_unet (channels : nat) : UNet spec_float := {|
  unet_call := fun x t conditioning =>
    if batches_agree x t conditioning then Ok x else Raise batch_mismatch;
  in_channels := channels;
  sample_size := 8
|}.

Definition small_vae : Vae spec_float Z := {|
  encode_sample := fun x g =>
    (match x with FloatTensor t => t | LongTensor _ => [] end, g);
  decode := fun z => z
|}.

Definition small_text_encoder : TextEncoder spec_float :=
  fun x => match x with
           | LongTensor ids => map (map of_Z) ids
           | FloatTensor t => t
           end.

Definition small_tokenizer : list string -> bool -> list (list Z) :=
  fun prompts _ => map (fun p => [Z.of_nat (String.length p)]) prompts.

Definition small_noise_scheduler (kind : string) : NoiseScheduler spec_float := {|
  prediction_type := kind;
  num_train_timesteps := 1000;
  add_noise := fun latents noise _ => total (tensor_add latents noise) latents;
  get_velocity := fun latents noise _ => total (tensor_sub noise latents) noise
|}.

Fixpoint countdown (n : nat) : list spec_float :=
  match n with
  | O => []
  | S n' => of_Z (Z.of_nat n) :: countdown n'
  end.

Definition small_inference_scheduler : InferenceScheduler spec_float (list spec_float) := {|
  set_timesteps := fun n _ => countdown n;
  timesteps := fun s => s;
  init_noise_sigma := fun _ => of_Z 2;
  scale_model_input := fun x _ s => (x, s);
  step := fun model_output _ sample s =>
    (keep_shape sample (total (tensor_sub sample model_output) sample), s)
|}.

Definition small_pipeline : Pipeline spec_float Z := {|
  pipeline_text_encoder := small_text_encoder;
  pipeline_vae := small_vae;
  pipeline_unet := small_unet 1
|}.

Definition small_model (kind : string) : StableDiffusion spec_float Z (list spec_float) := {|
  unet := small_unet 1;
  vae := small_vae;
  text_encoder := small_text_encoder;
  tokenizer := small_tokenizer;
  noise_scheduler := small_noise_scheduler kind;
  inference_scheduler := small_inference_scheduler;
  loss_fn := fun _ _ => of_Z 0;
  pipeline := small_pipeline;
  image_key := "image_tensor";
  caption_key := "input_ids"
|}.

(** A denoiser whose unconditional half is 1.0 and whose conditional half
    is 2^-30, whatever it is given. *)
Definition lopsided_unet : UNet spec_float := {|
  unet_call := fun x t conditioning =>
    if batches_agree x t conditioning then Ok [[of_Z 1]; [pow2 (-30)]]
    else Raise batch_mismatch;
  in_channels := 1;
  sample_size := 8
|}.

Definition lopsided_model : StableDiffusion spec_float Z (list spec_float) := {|
  unet := lopsided_unet;
  vae := small_vae;
  text_encoder := small_text_encoder;
  tokenizer := small_tokenizer;
  noise_scheduler := small_noise_scheduler "epsilon";
  inference_scheduler := small_inference_scheduler;
  loss_fn := fun _ _ => of_Z 0;
  pipeline := small_pipeline;
  image_key := "image_tensor";
  caption_key := "input_ids"
|}.

(** A hub whose artifacts depend on the name asked for. *)
Definition small_hub : Hub spec_float Z (list spec_float) := {|
  UNet2DConditionModel := fun name _ => small_unet (String.length name);
  enable_xformers_memory_efficient_attention := fun u => u;
  AutoencoderKL := fun _ _ => small_vae;
  CLIPTextModel := fun _ _ => small_text_encoder;
  DDPMScheduler := fun name _ => small_noise_scheduler name;
  LMSDiscreteScheduler := fun _ _ => (small_inference_scheduler, []);
  CLIPTokenizer := fun _ _ => small_tokenizer;
  StableDiffusionPipeline := fun _ _ _ _ => small_pipeline;
  mse_loss := fun _ _ => of_Z 0
|}.

Fixpoint batches (fuel size : nat) (start : nat) (prompts : list string) : list Example :=
  match fuel with
  | O => []
  | S fuel' =>
      match prompts with
      | [] => []
      | _ =>
          {| example_prompt := firstn size prompts;
             example_index := seq start (length (firstn size prompts)) |}
          :: batches fuel' size (start + size) (skipn size prompts)
      end
  end.

Definition small_helpers : Helpers := {|
  calculate_batch_size_info := fun global ws =>
    if Nat.eqb (global mod ws) 0 then Ok (global / ws)%nat
    else Raise (ValueError "Global batch size must be divisible by world size");
  build_prompt_dataloader := fun prompts size => batches (length prompts) size 0 prompts;
  sha1_hexdigest := fun bytes => pretty (fold_right Z.add 0%Z bytes)
|}.

Definition small_world (cuda : bool) : World Z (list spec_float) := {|
  rng := 5%Z;
  sched := [];
  fs := Dir ∅;
  cuda_is_available := cuda;
  world_size := 1;
  xformers_available := false
|}.

Definition small_config (accum : GradAccum) (class_images : Z) : Config := {|
  seed := 17;
  grad_accum := accum;
  global_train_batch_size := 4;
  global_eval_batch_size := 1;
  model := {| name := "stabilityai/stable-diffusion-2-1";
              train_text_encoder := false;
              train_unet := true;
              num_images_per_prompt := 1;
              model_image_key := "image_tensor";
              model_caption_key := "input_ids" |};
  use_prior_preservation := true;
  num_class_images := class_images;
  dataset := {| class_data_root := "class_images";
                class_prompt := "a photo of a dog";
                instance_data_root := "instance_images";
                instance_prompt := "a photo of sks dog";
                eval_prompts := ["a photo of sks dog on the beach"] |};
  use_ema := false;
  loggers := []
|}.

Definition small_batch : gmap string (AnyTensor spec_float) :=
  {[ "image_tensor" := FloatTensor [[of_Z 1; of_Z 2]; [of_Z 3; of_Z 4]];
     "input_ids" := LongTensor [[7; 8]; [9; 10]]%Z ]}.

(** A batch without its caption entry. *)
Definition uncaptioned_batch : gmap string (AnyTensor spec_float) :=
  {[ "image_tensor" := FloatTensor [[of_Z 1; of_Z 2]; [of_Z 3; of_Z 4]] ]}.

(** Three processes, a GPU. *)
Definition crowded_world : World Z (list spec_float) := {|
  rng := 5%Z;
  sched := [];
  fs := Dir ∅;
  cuda_is_available := true;
  world_size := 3;
  xformers_available := true
|}.


(** A configuration whose class directory lies two levels down, and a
    world in which only the first level exists, beside another directory
    that holds a file. *)
Definition nested_config : Config := {|
  seed := 17;
  grad_accum := GradAccumInt 1;
  global_train_batch_size := 4;
  global_eval_batch_size := 1;
  model := model (small_config (GradAccumInt 1) 2);
  use_prior_preservation := true;
  num_class_images := 2;
  dataset := {| class_data_root := "data/dogs/class_images";
                class_prompt := "a photo of a dog";
                instance_data_root := "instance_images";
                instance_prompt := "a photo of sks dog";
                eval_prompts := ["a photo of sks dog on the beach"] |};
  use_ema := false;
  loggers := []
|}.

Definition nested_world : World Z (list spec_float) := {|
  rng := 5%Z;
  sched := [];
  fs := Dir {[ "data" := Dir {[ "cats" := Dir {[ "0-7.jpg" := File (fromarray [7%Z]) ]} ]} ]};
  cuda_is_available := true;
  world_size := 1;
  xformers_available := false
|}.

(** One yaml file that parses, one that does not; the command line
    overrides nothing. *)
Definition small_omegaconf : OmegaConf Config := {|
  yaml_files :=
    {[ "dreambooth.yaml" := Ok (small_config (GradAccumInt 1) 2);
       "broken.yaml" := Raise (ValueError "could not parse yaml") ]};
  load_image := fun _ => Raise (ValueError "could not parse yaml");
  from_cli := fun _ => Ok (small_config (GradAccumInt 1) 0);
  merge := fun yaml _ => Ok yaml
|}.

End Small.

(** ** Classifying the log *)

Section Log.

Context {F : Type}.

(** A call of the denoising network. *)
Definition is_unet_call (e : Event F) : bool :=
  match e with EvUnet _ _ _ _ => true | _ => false end.

(** A denoiser call or a scheduler step. *)
Definition is_denoising (e : Event F) : bool :=
  match e with EvUnet _ _ _ _ | EvStep _ _ _ => true | _ => false end.

(** An image written to disk. *)
Definition is_save (e : Event F) : bool :=
  match e with EvSave _ => true | _ => false end.

(** The driver's work: everything but seeding, process-group start-up and
    progress messages, that is model building, class-image pre-generation,
    dataloader construction and training. *)
Definition is_work (e : Event F) : bool :=
  match e with
  | EvSeedAll _ | EvInitializeDist _ | EvPrint _ => false
  | _ => true
  end.

(** A hub download under the given name. *)
Definition loaded_from (name : string) (e : Event F) : Prop :=
  match e with
  | EvFromPretrained _ name' _ => name' = name
  | _ => True
  end.

(** How many entries of a log satisfy [p]. *)
Definition count_events (p : Event F -> bool) (evs : list (Event F)) : nat :=
  length (List.filter p evs).

(** A scheduler step. *)
Definition is_step (e : Event F) : bool :=
  match e with EvStep _ _ _ => true | _ => false end.


(** A denoiser call is conditioned on [text_embeddings] at one of the
    timesteps [ts]; other entries are unconstrained. *)
Definition conditioned_on (text_embeddings : Tensor F) (ts : list F)
    (e : Event F) : Prop :=
  match e with
  | EvUnet _ t conditioning _ =>
      conditioning = text_embeddings
      /\ exists t0, t = TimestepScalar t0 /\ In t0 ts
  | _ => True
  end.

(** The batch sizes of a denoiser call: [n] slices of input, [m] slices of
    conditioning. *)
Definition unet_batch_sizes (n m : nat) (e : Event F) : Prop :=
  match e with
  | EvUnet x _ conditioning _ => length x = n /\ length conditioning = m
  | _ => True
  end.

End Log.


(** The log of the loop as a chain: each iteration works on the latents the
    previous step returned (for some state of the scheduler object), starting
    from [latents]; [final] is what the last step returned, or nothing when
    an iteration raised. *)
Inductive threaded {F Sched : Type} (scheduler : InferenceScheduler F Sched)
    : Tensor F -> list (Event F) -> option (Tensor F) -> Prop :=
| threaded_done latents :
    threaded scheduler latents [] (Some latents)
| threaded_stop latents t x conditioning out :
    threaded scheduler latents
      [EvScaleModelInput (torch_cat [latents; latents]) t x;
       EvUnet x (TimestepScalar t) conditioning out]
      None
| threaded_next latents t x conditioning out model_output s rest final :
    threaded scheduler (fst (step scheduler model_output t latents s)) rest final ->
    threaded scheduler latents
      (EvScaleModelInput (torch_cat [latents; latents]) t x
       :: EvUnet x (TimestepScalar t) conditioning out
       :: EvStep model_output t latents
       :: rest)
      final.

(** * Properties *)

Section ForwardProperties.

Context {F : Type} `{DType F} {Rng Sched : Type}.
Variable torch : Torch F Rng.

Lemma draws_length (n : nat) (g g' : Rng) (row : list F) :
  draws torch n g = (row, g') -> length row = n.
Proof.
  revert g g' row. induction n as [|n IH]; simpl; intros g g' row Hd.
  - inversion Hd. reflexivity.
  - destruct (normal torch g) as [v g1].
    destruct (draws torch n g1) as [vs g2] eqn:Hvs.
    inversion Hd. simpl. f_equal. eapply IH. exact Hvs.
Qed.

Lemma draw_slices_sizes (sizes : list nat) (g g' : Rng) (x : Tensor F) :
  draw_slices torch sizes g = (x, g') -> shape x = sizes.
Proof.
  revert g g' x. induction sizes as [|n sizes IH]; simpl; intros g g' x Hd.
  - inversion Hd. reflexivity.
  - destruct (draws torch n g) as [row g1] eqn:Hrow.
    destruct (draw_slices torch sizes g1) as [rows g2] eqn:Hrows.
    inversion Hd. unfold shape. simpl. f_equal.
    + eapply draws_length. exact Hrow.
    + eapply IH. exact Hrows.
Qed.

Lemma draw_slices_shape (latents noise : Tensor F) (g g' : Rng) :
  draw_slices torch (map (@length F) latents) g = (noise, g') ->
  shape noise = shape latents.
Proof.
  intros Hd. apply draw_slices_sizes in Hd. exact Hd.
Qed.

(** The outcome of a forward pass under an unknown prediction type: the
    pass stops at the choice of the target, after the encoders and the
    noising, with nothing after it. *)
Lemma forward_unknown_outcome (self : StableDiffusion F Rng Sched)
    (batch : gmap string (AnyTensor F)) (inputs conditioning : AnyTensor F)
    (w : World Rng Sched) :
  batch !! image_key self = Some inputs ->
  batch !! caption_key self = Some conditioning ->
  prediction_type (noise_scheduler self) <> "epsilon" ->
  prediction_type (noise_scheduler self) <> "v_prediction" ->
  exists latents noise timesteps,
    result (forward torch self batch w)
    = Raise (ValueError ("Unknown prediction type "
                         +:+ prediction_type (noise_scheduler self)))
    /\ events (forward torch self batch w)
       = [EvVaeEncode inputs; EvTextEncoder conditioning;
          EvAddNoise latents noise timesteps].
Proof.
  intros Hi Hc He Hv.
  apply String.eqb_neq in He. apply String.eqb_neq in Hv.
  unfold forward, getitem. rewrite Hi, Hc, He, Hv.
  unfold bind, call_vae_encode, call_text_encoder, randint, randn_like,
    call_add_noise, emit, ret, raise. simpl.
  destruct (encode_sample (vae self) inputs (rng w)) as [latents g1]. simpl.
  destruct (draw_ints torch 0 _ _ g1) as [ts g2]. simpl.
  destruct (draw_slices torch _ g2) as [noise g3]. simpl.
  eexists _, _, _. split; reflexivity.
Qed.

(** C1.  When the training scheduler's [prediction_type] is neither
    ["epsilon"] nor ["v_prediction"], a forward pass on a batch that holds the
    image and caption entries raises [ValueError] ("Unknown prediction type
    ...") and the log of the pass holds no call of the denoising network. *)
Theorem forward_unknown_prediction_type (self : StableDiffusion F Rng Sched)
    (batch : gmap string (AnyTensor F)) (inputs conditioning : AnyTensor F)
    (w : World Rng Sched) :
  batch !! image_key self = Some inputs ->
  batch !! caption_key self = Some conditioning ->
  prediction_type (noise_scheduler self) <> "epsilon" ->
  prediction_type (noise_scheduler self) <> "v_prediction" ->
  result (forward torch self batch w)
  = Raise (ValueError ("Unknown prediction type "
                       +:+ prediction_type (noise_scheduler self)))
  /\ Forall (fun e => is_unet_call e = false) (events (forward torch self batch w)).
Proof.
  intros Hi Hc He Hv.
  destruct (forward_unknown_outcome self batch inputs conditioning w Hi Hc He Hv)
    as (latents & noise & ts & Hr & Hev).
  rewrite Hr, Hev. split; [reflexivity | repeat constructor].
Qed.

(** Whatever the batch holds, such a pass fails without reaching the
    denoising network: a missing entry is a [KeyError] before anything runs. *)
Lemma forward_unknown_prediction_type_any_batch (self : StableDiffusion F Rng Sched)
    (batch : gmap string (AnyTensor F)) (w : World Rng Sched) :
  prediction_type (noise_scheduler self) <> "epsilon" ->
  prediction_type (noise_scheduler self) <> "v_prediction" ->
  is_raise (result (forward torch self batch w)) = true
  /\ Forall (fun e => is_unet_call e = false) (events (forward torch self batch w)).
Proof.
  intros He Hv.
  destruct (batch !! image_key self) as [inputs|] eqn:Hi.
  - destruct (batch !! caption_key self) as [conditioning|] eqn:Hc.
    + destruct (forward_unknown_outcome self batch inputs conditioning w
                  Hi Hc He Hv) as (latents & noise & ts & Hr & Hev).
      rewrite Hr, Hev. split; [reflexivity | repeat constructor].
    + unfold forward, getitem. rewrite Hi, Hc.
      unfold bind, ret, raise. simpl. split; [reflexivity | constructor].
  - unfold forward, getitem. rewrite Hi.
    unfold bind, raise. simpl. split; [reflexivity | constructor].
Qed.


End ForwardProperties.

Section GenerateProperties.

Context {F : Type} `{DType F} {Rng Sched : Type}.
Variable torch : Torch F Rng.




(** A call of [generate] with a height and a width, as its loop. *)
Lemma generate_with_sizes (self : StableDiffusion F Rng Sched)
    (prompt : list string) (h wd : nat) (num_inference_steps : nat)
    (guidance_scale : Q) (negative_prompt : option (list string))
    (num_images_per_prompt : nat) (eta : Q) (w : World Rng Sched) :
  let drawn := draws torch (latent_size self (S h) (S wd)) (manual_seed torch 32) in
  let s0 := set_timesteps (inference_scheduler self) num_inference_steps (sched w) in
  let loop :=
    backward_diffusion self (guidance_embeddings self prompt) (lit guidance_scale)
      (timesteps (inference_scheduler self) s0)
      (mul_scalar [fst drawn] (init_noise_sigma (inference_scheduler self) s0))
      (set_sched s0 (set_rng (snd drawn) w)) in
  generate torch self prompt (Some (S h)) (Some (S wd)) num_inference_steps
    guidance_scale negative_prompt num_images_per_prompt eta w
  = match result loop with
    | Ok latents =>
        MkOutcome (Ok (decode_images torch self latents)) (world loop)
          (generate_preamble self prompt num_inference_steps ++ events loop
           ++ [EvVaeDecode (scalar_mul (lit (1 / 0.18215)%Q) latents)])
    | Raise e =>
        MkOutcome (Raise e) (world loop)
          (generate_preamble self prompt num_inference_steps ++ events loop)
    end.
Proof.
  cbv zeta. unfold generate. simpl.
  unfold bind, call_tokenizer, call_text_encoder, call_set_timesteps,
    call_vae_decode, randn, modify, gets, emit, ret. simpl.
  unfold latent_size, guidance_embeddings. simpl.
  destruct (draws torch _ _) as [row g1]. simpl.
  destruct (backward_diffusion _ _ _ _ _ _) as [[lat|e] w2 evs]; simpl.
  - reflexivity.
  - reflexivity.
Qed.


(** C6.  [generate] does not depend on the state of torch's generator at
    the call: with the same model (scheduler object included) and the same
    arguments, two calls started from different generator states return the
    same result, raise the same exception, and make the same calls.  The
    generator is reseeded with 32 before the first draw. *)
Theorem generate_deterministic (self : StableDiffusion F Rng Sched)
    (prompt : list string) (height width : option nat) (num_inference_steps : nat)
    (guidance_scale : Q) (negative_prompt : option (list string))
    (num_images_per_prompt : nat) (eta : Q) (w : World Rng Sched) (ambient : Rng) :
  result (generate torch self prompt height width num_inference_steps
            guidance_scale negative_prompt num_images_per_prompt eta
            (set_rng ambient w))
  = result (generate torch self prompt height width num_inference_steps
              guidance_scale negative_prompt num_images_per_prompt eta w)
  /\ events (generate torch self prompt height width num_inference_steps
               guidance_scale negative_prompt num_images_per_prompt eta
               (set_rng ambient w))
     = events (generate torch self prompt height width num_inference_steps
                 guidance_scale negative_prompt num_images_per_prompt eta w).
Proof.
  unfold generate.
  destruct height as [[|h]|]; simpl; try (split; reflexivity).
  all: destruct width as [[|wd]|]; simpl; try (split; reflexivity).
Qed.

(** After a successful call the generator is left in a state that depends on
    the arguments alone, whatever it was before. *)
Lemma generate_reseeds (self : StableDiffusion F Rng Sched)
    (prompt : list string) (h wd : nat) (num_inference_steps : nat)
    (guidance_scale : Q) (negative_prompt : option (list string))
    (num_images_per_prompt : nat) (eta : Q) (w : World Rng Sched) (ambient : Rng) :
  rng (world (generate torch self prompt (Some (S h)) (Some (S wd))
                num_inference_steps guidance_scale negative_prompt
                num_images_per_prompt eta (set_rng ambient w)))
  = rng (world (generate torch self prompt (Some (S h)) (Some (S wd))
                  num_inference_steps guidance_scale negative_prompt
                  num_images_per_prompt eta w)).
Proof.
  unfold generate. simpl. reflexivity.
Qed.

(** The loop depends on the world through the scheduler's state alone. *)
Lemma backward_diffusion_sched_only (self : StableDiffusion F Rng Sched)
    (text_embeddings : Tensor F) (guidance_scale : F) (ts : list F) :
  forall (latents : Tensor F) (w1 w2 : World Rng Sched),
    sched w1 = sched w2 ->
    result (backward_diffusion self text_embeddings guidance_scale ts latents w1)
    = result (backward_diffusion self text_embeddings guidance_scale ts latents w2)
    /\ events (backward_diffusion self text_embeddings guidance_scale ts latents w1)
       = events (backward_diffusion self text_embeddings guidance_scale ts latents w2)
    /\ sched (world (backward_diffusion self text_embeddings guidance_scale ts
                       latents w1))
       = sched (world (backward_diffusion self text_embeddings guidance_scale ts
                         latents w2)).
Proof.
  induction ts as [|t ts IH]; intros latents w1 w2 Hs; simpl.
  - repeat split. exact Hs.
  - unfold bind, call_scale_model_input, call_unet, call_step, emit, ret, lift.
    rewrite Hs.
    destruct (scale_model_input _ _ _ _) as [x s1]. simpl.
    destruct (unet_call _ _ _ _) as [o|e]; simpl; [|repeat split].
    destruct (unpack2 (chunk _ _)) as [[uncond cond]|e]; simpl;
      [|repeat split].
    destruct (classifier_free_guidance _ _ _) as [pred|e]; simpl;
      [|repeat split].
    destruct (step _ _ _ _ _) as [prev s2]. simpl.
    destruct (IH prev (set_sched s2 (set_sched s1 w1))
                (set_sched s2 (set_sched s1 w2)) eq_refl) as (Hr & He & Hw).
    destruct (backward_diffusion _ _ _ _ prev (set_sched s2 (set_sched s1 w1)))
      as [r1 w1' evs1].
    destruct (backward_diffusion _ _ _ _ prev (set_sched s2 (set_sched s1 w2)))
      as [r2 w2' evs2].
    simpl in *. subst. repeat split. exact Hw.
Qed.

(** When [set_timesteps] resets the scheduler object (its result does not
    depend on the state it finds), two calls with the same arguments agree
    from any two worlds: also one after the other on the same model. *)
Lemma generate_deterministic_any_world (self : StableDiffusion F Rng Sched)
    (prompt : list string) (height width : option nat) (num_inference_steps : nat)
    (guidance_scale : Q) (negative_prompt : option (list string))
    (num_images_per_prompt : nat) (eta : Q) (w1 w2 : World Rng Sched) :
  (forall n s s',
     set_timesteps (inference_scheduler self) n s
     = set_timesteps (inference_scheduler self) n s') ->
  result (generate torch self prompt height width num_inference_steps
            guidance_scale negative_prompt num_images_per_prompt eta w1)
  = result (generate torch self prompt height width num_inference_steps
              guidance_scale negative_prompt num_images_per_prompt eta w2)
  /\ events (generate torch self prompt height width num_inference_steps
               guidance_scale negative_prompt num_images_per_prompt eta w1)
     = events (generate torch self prompt height width num_inference_steps
                 guidance_scale negative_prompt num_images_per_prompt eta w2).
Proof.
  intros Hreset. unfold generate.
  destruct height as [[|h]|]; simpl; try (split; reflexivity).
  all: destruct width as [[|wd]|]; simpl; try (split; reflexivity).
  unfold bind, call_tokenizer, call_text_encoder, call_set_timesteps,
    call_vae_decode, randn, modify, gets, emit, ret. simpl.
  destruct (draws torch _ _) as [row g1]. simpl.
  rewrite (Hreset num_inference_steps (sched w1) (sched w2)).
  match goal with
  | |- context [backward_diffusion ?a ?b ?c ?d ?l0 (set_sched ?s0 ?u1)] =>
      match goal with
      | |- context [backward_diffusion a b c d l0 (set_sched s0 ?u2)] =>
          lazymatch u1 with
          | u2 => fail
          | _ =>
              destruct (backward_diffusion_sched_only a b c d l0
                          (set_sched s0 u1) (set_sched s0 u2) eq_refl)
                as (Hr & He & _);
              destruct (backward_diffusion a b c d l0 (set_sched s0 u1))
                as [r1 w1' evs1];
              destruct (backward_diffusion a b c d l0 (set_sched s0 u2))
                as [r2 w2' evs2]
          end
      end
  end.
  simpl in *. subst. destruct r2; simpl; split; reflexivity.
Qed.

(** [negative_prompt], [num_images_per_prompt] and [eta] are never read. *)
Lemma generate_ignores_unused_arguments (self : StableDiffusion F Rng Sched)
    (prompt : list string) (height width : option nat) (num_inference_steps : nat)
    (guidance_scale : Q) (negative_prompt negative_prompt' : option (list string))
    (num_images_per_prompt num_images_per_prompt' : nat) (eta eta' : Q)
    (w : World Rng Sched) :
  generate torch self prompt height width num_inference_steps guidance_scale
    negative_prompt num_images_per_prompt eta w
  = generate torch self prompt height width num_inference_steps guidance_scale
      negative_prompt' num_images_per_prompt' eta' w.
Proof. reflexivity. Qed.

(** C10 (the code's defect).  Called without a height, as the driver does,
    [generate] evaluates [self.vae_scale_factor] for the default and raises
    [AttributeError] before any collaborator is called: no list of images is
    returned. *)
Theorem generate_default_height_raises (self : StableDiffusion F Rng Sched)
    (prompt : list string) (width : option nat) (num_inference_steps : nat)
    (guidance_scale : Q) (negative_prompt : option (list string))
    (num_images_per_prompt : nat) (eta : Q) (w : World Rng Sched) :
  generate torch self prompt None width num_inference_steps guidance_scale
    negative_prompt num_images_per_prompt eta w
  = MkOutcome
      (Raise (AttributeError
                "'StableDiffusion' object has no attribute 'vae_scale_factor'"))
      w [].
Proof. reflexivity. Qed.

(** The same for a missing (or zero) width, once a height is given. *)
Lemma generate_default_width_raises (self : StableDiffusion F Rng Sched)
    (prompt : list string) (h : nat) (num_inference_steps : nat)
    (guidance_scale : Q) (negative_prompt : option (list string))
    (num_images_per_prompt : nat) (eta : Q) (w : World Rng Sched) :
  generate torch self prompt (Some (S h)) None num_inference_steps guidance_scale
    negative_prompt num_images_per_prompt eta w
  = MkOutcome
      (Raise (AttributeError
                "'StableDiffusion' object has no attribute 'vae_scale_factor'"))
      w [].
Proof. reflexivity. Qed.

(** *** One image per call, when the sizes are given *)

Lemma map2_length {A B C} (f : A -> B -> C) (l : list A) (l' : list B) :
  length l = length l' -> length (map2 f l l') = length l.
Proof.
  revert l'. induction l as [|a l IH]; intros [|b l'] Hl; simpl in *;
    try discriminate; [reflexivity|].
  f_equal. apply IH. congruence.
Qed.

Lemma same_lengths_shape (a b : Tensor F) :
  shape a = shape b -> same_lengths a b = true.
Proof.
  unfold same_lengths, shape.
  revert b. induction a as [|ra a IH]; intros [|rb b] Hs; simpl in *;
    try discriminate; [reflexivity|].
  inversion Hs as [[Hr Hrest]]. rewrite Hr, Nat.eqb_refl. simpl.
  apply IH. exact Hrest.
Qed.

Lemma broadcast_same_shape (a b : Tensor F) :
  shape a = shape b -> broadcast a b = Ok (a, b).
Proof.
  intros Hs. unfold broadcast.
  assert (Hl : length a = length b).
  { unfold shape in Hs. apply (f_equal (@length nat)) in Hs.
    rewrite !length_map in Hs. exact Hs. }
  rewrite Hl, Nat.eqb_refl. rewrite (same_lengths_shape a b Hs). reflexivity.
Qed.

Lemma map2_map2_shape (op : F -> F -> F) (a b : Tensor F) :
  shape a = shape b -> shape (map2 (map2 op) a b) = shape a.
Proof.
  unfold shape. revert b.
  induction a as [|ra a IH]; intros [|rb b] Hs; simpl in *;
    try discriminate; [reflexivity|].
  inversion Hs as [[Hr Hrest]]. f_equal.
  - apply map2_length. exact Hr.
  - apply IH. exact Hrest.
Qed.

Lemma elementwise_same_shape (op : F -> F -> F) (a b : Tensor F) :
  shape a = shape b ->
  elementwise op a b = Ok (map2 (map2 op) a b).
Proof.
  intros Hs. unfold elementwise. rewrite (broadcast_same_shape a b Hs). reflexivity.
Qed.

Lemma scalar_mul_shape (s : F) (x : Tensor F) : shape (scalar_mul s x) = shape x.
Proof.
  unfold shape, scalar_mul. rewrite map_map. apply map_ext.
  intros row. apply length_map.
Qed.

(** On operands of one shape the guidance is defined, slice by slice. *)
Lemma classifier_free_guidance_same_shape (guidance_scale : F) (uncond cond : Tensor F) :
  shape uncond = shape cond ->
  classifier_free_guidance guidance_scale uncond cond
  = Ok (map2 (map2 fadd) uncond
          (scalar_mul guidance_scale (map2 (map2 fsub) cond uncond))).
Proof.
  intros Hs. unfold classifier_free_guidance, tensor_sub, tensor_add.
  rewrite (elementwise_same_shape fsub cond uncond) by (symmetry; exact Hs).
  rewrite elementwise_same_shape; [reflexivity|].
  rewrite scalar_mul_shape, map2_map2_shape by (symmetry; exact Hs). exact Hs.
Qed.

Lemma chunk_pair (r1 r2 : list F) : chunk [r1; r2] 2 = [[r1]; [r2]].
Proof. reflexivity. Qed.

Section ShapePreserving.

Variable self : StableDiffusion F Rng Sched.

(** The scheduler returns tensors of the shape it is given; so does the
    denoiser, on as many conditioning slices as sample slices; the decoder
    keeps the batch size. *)
Hypothesis scale_model_input_shape : forall x t s,
  shape (fst (scale_model_input (inference_scheduler self) x t s)) = shape x.
Hypothesis unet_shape : forall x t conditioning,
  length x = length conditioning ->
  exists out,
    unet_call (unet self) x (TimestepScalar t) conditioning = Ok out
    /\ shape out = shape x.
Hypothesis step_shape : forall model_output t sample s,
  shape (fst (step (inference_scheduler self) model_output t sample s)) = shape sample.
Hypothesis decode_batch : forall z,
  length (decode (vae self) z) = length z.

Lemma backward_diffusion_one_sample (text_embeddings : Tensor F)
    (guidance_scale : F) (ts : list F) :
  length text_embeddings = 2%nat ->
  forall (latents : Tensor F) (w : World Rng Sched) (n : nat),
    shape latents = [n] ->
    exists latents' w' evs,
      backward_diffusion self text_embeddings guidance_scale ts latents w
      = MkOutcome (Ok latents') w' evs
      /\ shape latents' = [n].
Proof.
  intros Hemb.
  induction ts as [|t ts IH]; intros latents w n Hn; simpl.
  - unfold ret. eauto.
  - unfold bind, call_scale_model_input, call_unet, call_step, emit, ret, lift.
    pose proof (scale_model_input_shape (torch_cat [latents; latents]) t (sched w))
      as Hx.
    destruct (scale_model_input _ _ _ _) as [x s1]. simpl in *.
    assert (Hcat : shape (torch_cat [latents; latents]) = [n; n]).
    { destruct latents as [|r [|r' rest]]; try discriminate.
      inversion Hn. reflexivity. }
    rewrite Hcat in Hx.
    destruct (unet_shape x t text_embeddings) as (out & Hcall & Hout).
    { apply (f_equal (@length nat)) in Hx. unfold shape in Hx.
      rewrite length_map in Hx. simpl in Hx. congruence. }
    rewrite Hcall. simpl. rewrite Hx in Hout.
    destruct out as [|r1 [|r2 [|r3 rest]]]; try discriminate.
    injection Hout as H1 H2.
    rewrite chunk_pair. simpl.
    rewrite classifier_free_guidance_same_shape
      by (unfold shape; simpl; congruence).
    simpl.
    match goal with
    | |- context [step ?sch ?m ?t0 ?x0 ?s0] =>
        pose proof (step_shape m t0 x0 s0) as Hstep;
        destruct (step sch m t0 x0 s0) as [prev s2]
    end. simpl in *.
    destruct (IH prev (set_sched s2 (set_sched s1 w)) n) as (l' & w' & evs & Hb & Hl).
    { rewrite Hstep. exact Hn. }
    rewrite Hb. simpl. eexists _, _, _. split; [reflexivity | exact Hl].
Qed.

(** With a height and a width, one prompt, and collaborators that keep
    shapes, [generate] returns exactly one image, whatever
    [num_images_per_prompt]. *)
Lemma generate_one_image (prompt : string) (h wd : nat)
    (num_inference_steps : nat) (guidance_scale : Q)
    (negative_prompt : option (list string)) (num_images_per_prompt : nat)
    (eta : Q) (w : World Rng Sched) :
  length (guidance_embeddings self [prompt]) = 2%nat ->
  exists image,
    result (generate torch self [prompt] (Some (S h)) (Some (S wd))
              num_inference_steps guidance_scale negative_prompt
              num_images_per_prompt eta w)
    = Ok [image].
Proof.
  intros Hemb.
  rewrite generate_with_sizes. cbv zeta.
  match goal with
  | |- context [backward_diffusion ?a ?b ?c ?d ?l0 ?w0] =>
      destruct (backward_diffusion_one_sample b c d Hemb l0 w0
                  (length (fst (draws torch (latent_size self (S h) (S wd))
                                  (manual_seed torch 32)))))
        as (l' & w' & evs & Hb & Hl)
  end.
  { unfold shape, mul_scalar. simpl. rewrite length_map. reflexivity. }
  rewrite Hb. simpl.
  pose proof (decode_batch (scalar_mul (lit (1 / 0.18215)%Q) l')) as Hd.
  assert (Hlen : length l' = 1%nat).
  { unfold shape in Hl. apply (f_equal (@length nat)) in Hl.
    rewrite length_map in Hl. exact Hl. }
  unfold scalar_mul in Hd at 2. rewrite length_map, Hlen in Hd.
  unfold decode_images, clamp, add_scalar, div_scalar. rewrite !map_map.
  destruct (decode (vae self) _) as [|img [|img' rest]]; try discriminate.
  simpl. eauto.
Qed.

End ShapePreserving.

End GenerateProperties.

(** ** Guidance at scale one *)

Section Guidance.

Context {F : Type} `{DType F}.

(** In exact arithmetic every pair of elements cancels. *)
Lemma guidance_one_scalar :
  ring_theory fzero fone fadd fmul fsub fopp eq ->
  lit 1%Q = fone ->
  forall u c : F, cancels u c.
Proof.
  intros R H1 u c. unfold cancels. rewrite H1.
  rewrite (Rmul_1_l R), (Rsub_def R).
  rewrite (Radd_comm R c (fopp u)), (Radd_assoc R), (Ropp_def R).
  apply (Radd_0_l R).
Qed.

(** One slice of line 187 at scale 1 is the conditional slice exactly when
    every pair of elements cancels. *)
Lemma guidance_one_slice (ru rc : list F) :
  length ru = length rc ->
  map2 fadd ru (map (fmul (lit 1%Q)) (map2 fsub rc ru)) = rc
  <-> Forall2 cancels ru rc.
Proof.
  revert rc. induction ru as [|u ru IH]; intros [|c rc] Hl; simpl in *;
    try discriminate.
  - split; [constructor | reflexivity].
  - injection Hl as Hl. specialize (IH rc Hl). split.
    + intros Heq. injection Heq as Hu Hrest.
      constructor; [exact Hu | apply IH; exact Hrest].
    + intros Hall. inversion Hall as [|? ? ? ? Hu Hrest]; subst.
      unfold cancels in Hu. rewrite Hu. f_equal. apply IH. exact Hrest.
Qed.

Lemma guidance_one_slices (uncond cond : Tensor F) :
  shape uncond = shape cond ->
  map2 (map2 fadd) uncond (scalar_mul (lit 1%Q) (map2 (map2 fsub) cond uncond))
  = cond
  <-> Forall2 (Forall2 cancels) uncond cond.
Proof.
  unfold scalar_mul, shape.
  revert cond. induction uncond as [|ru uncond IH]; intros [|rc cond] Hs;
    simpl in *; try discriminate.
  - split; [constructor | reflexivity].
  - injection Hs as Hr Hrest. specialize (IH cond Hrest).
    pose proof (guidance_one_slice ru rc Hr) as Hslice. split.
    + intros Heq. injection Heq as Hrow Hrows.
      constructor; [apply Hslice; exact Hrow | apply IH; exact Hrows].
    + intros Hall. inversion Hall as [|? ? ? ? Hrow Hrows]; subst.
      f_equal; [apply Hslice; exact Hrow | apply IH; exact Hrows].
Qed.


(** In exact arithmetic (the element operations form a ring) guidance at
    scale 1 always returns the conditional prediction. *)
Lemma guidance_scale_one_exact (uncond cond : Tensor F) :
  ring_theory fzero fone fadd fmul fsub fopp eq ->
  lit 1%Q = fone ->
  shape uncond = shape cond ->
  classifier_free_guidance (lit 1%Q) uncond cond = Ok cond.
Proof.
  intros R H1 Hs.
  rewrite (classifier_free_guidance_same_shape _ _ _ Hs). f_equal.
  apply (guidance_one_slices uncond cond Hs).
  unfold shape in Hs. revert cond Hs.
  induction uncond as [|ru uncond IH]; intros [|rc cond] Hs; simpl in *;
    try discriminate; constructor.
  - injection Hs as Hr _. revert rc Hr.
    induction ru as [|u ru IHr]; intros [|c rc] Hr; simpl in *;
      try discriminate; constructor.
    + apply guidance_one_scalar; assumption.
    + apply IHr. congruence.
  - apply IH. congruence.
Qed.

End Guidance.


(** Guidance at scale 1 on rationals. *)
Lemma guidance_scale_one_rationals :
  classifier_free_guidance (lit 1%Q) [[Q2Qc (1 # 2); Q2Qc 3]] [[Q2Qc (3 # 4); Q2Qc (-2)]]
  = Ok [[Q2Qc (3 # 4); Q2Qc (-2)]].
Proof.
  apply (guidance_scale_one_exact (F := Qc)).
  - exact Qcrt.
  - reflexivity.
  - reflexivity.
Qed.


(** ** The driver *)

Section DriverProperties.

Context {F : Type} `{DType F} {Rng Sched : Type}.
Variable torch : Torch F Rng.
Variable hub : Hub F Rng Sched.
Variable helpers : Helpers.

(** C7.  With [grad_accum = 'auto'] and no GPU, [main] raises a
    [ValueError] before any work: the log holds no model building,
    pre-generation, dataloader or training call and the directory tree is
    untouched.  Unless [seed_all] has rejected the seed, the exception is
    that of line 35, raised after seeding (and after starting the process
    group when there are several processes), and of the world only torch's
    generator has changed, reseeded with [config.seed]. *)
Theorem main_auto_grad_accum_on_cpu (config : Config) (w : World Rng Sched) :
  grad_accum config = GradAccumAuto ->
  cuda_is_available w = false ->
  (exists msg, result (main torch hub helpers config w) = Raise (ValueError msg))
  /\ Forall (fun e => is_work e = false) (events (main torch hub helpers config w))
  /\ fs (world (main torch hub helpers config w)) = fs w
  /\ (valid_seed (seed config) = true ->
      result (main torch hub helpers config w)
      = Raise (ValueError grad_accum_message)
      /\ world (main torch hub helpers config w)
         = set_rng (manual_seed torch (seed config)) w
      /\ events (main torch hub helpers config w)
         = EvSeedAll (seed config)
           :: (if Nat.ltb 1 (world_size w) then [EvInitializeDist "cpu"] else [])).
Proof.
  intros Hg Hc.
  unfold main, seed_all, bind, gets, emit, ret, raise, modify. simpl.
  destruct (valid_seed (seed config)); simpl.
  - rewrite Hg, Hc. simpl.
    destruct (Nat.ltb 1 (world_size w)); simpl;
      (split; [eexists; reflexivity|]); (split; [repeat constructor|]);
      (split; [reflexivity|]); intros _; repeat split.
  - split; [eexists; reflexivity|]. split; [repeat constructor|].
    split; [reflexivity | discriminate].
Qed.

(** The keywords [main] passes do not fit the signature of
    [build_stable_diffusion_model]: binding stops at [train_unet]. *)
Lemma main_build_keywords_rejected :
  bind_arguments "build_stable_diffusion_model"
    build_stable_diffusion_model_parameters 0 main_build_keywords
  = Raise (TypeError
      "build_stable_diffusion_model() got an unexpected keyword argument 'train_unet'").
Proof. reflexivity. Qed.

(** Nor do those of the pre-generation step fit [generate]. *)
Lemma main_generate_keywords_rejected :
  bind_arguments "generate" generate_parameters 1 main_generate_keywords
  = Raise (TypeError
      "generate() got an unexpected keyword argument 'disable_progress_bar'").
Proof. reflexivity. Qed.

(** C8.  For every configuration and environment: the driver's call to
    [build_stable_diffusion_model] passes the keywords [train_unet] and
    [num_images_per_prompt], which are no parameters of it, and binding the
    call's keywords raises [TypeError] (at [train_unet]); [main] therefore always ends in an
    exception, having logged nothing but seeding, process-group start-up and
    progress messages (no model building, pre-generation, dataloader or
    training call) and written nothing to disk; and whenever it has announced
    the model building, the exception is that [TypeError]. *)
Theorem main_never_builds_the_model (config : Config) (w : World Rng Sched) :
  (forall k, In k ["train_unet"; "num_images_per_prompt"] ->
     In k main_build_keywords
     /\ ~ In k (map fst build_stable_diffusion_model_parameters))
  /\ bind_arguments "build_stable_diffusion_model"
       build_stable_diffusion_model_parameters 0 main_build_keywords
     = Raise (TypeError
         "build_stable_diffusion_model() got an unexpected keyword argument 'train_unet'")
  /\ is_raise (result (main torch hub helpers config w)) = true
  /\ Forall (fun e => is_work e = false) (events (main torch hub helpers config w))
  /\ fs (world (main torch hub helpers config w)) = fs w
  /\ (In (EvPrint "Building Composer model")
        (events (main torch hub helpers config w)) ->
      result (main torch hub helpers config w)
      = Raise (TypeError
          "build_stable_diffusion_model() got an unexpected keyword argument 'train_unet'")).
Proof.
  split.
  { intros k [Hk|[Hk|[]]]; subst k; (split; [simpl; tauto|]);
      simpl; intros Hin;
      repeat (destruct Hin as [Hin|Hin]; try discriminate Hin); exact Hin. }
  split; [reflexivity|].
  unfold main, seed_all, bind, gets, emit, ret, raise, lift, py_call, modify. simpl.
  destruct (valid_seed (seed config)); simpl.
  2:{ split; [reflexivity|]. split; [repeat constructor|].
      split; [reflexivity|].
      intros [Hin|[]]. discriminate Hin. }
  destruct (cuda_is_available w); simpl;
    destruct (Nat.ltb 1 (world_size w)); simpl;
    destruct (grad_accum config); simpl;
    destruct (calculate_batch_size_info helpers (global_train_batch_size config)
                (world_size w)); simpl;
    try destruct (calculate_batch_size_info helpers (global_eval_batch_size config)
                    (world_size w)); simpl;
    (split; [reflexivity|]); (split; [repeat constructor|]);
    (split; [reflexivity|]);
    intros Hin; simpl in Hin;
    repeat (destruct Hin as [Hin|Hin]; try discriminate Hin);
    try reflexivity; try contradiction.
Qed.

(** C9.  [build_stable_diffusion_model] does not depend on its
    [model_name_or_path] argument: for any two names the outcome (the model
    built, the world, the log) is the same, and every artifact is fetched
    under the name "CompVis/stable-diffusion-v1-4". *)
Theorem build_ignores_model_name (name1 name2 : string) (train_text_encoder : bool)
    (image_key caption_key : string) (w : World Rng Sched) :
  build_stable_diffusion_model hub name1 train_text_encoder image_key caption_key w
  = build_stable_diffusion_model hub name2 train_text_encoder image_key caption_key w
  /\ Forall (loaded_from "CompVis/stable-diffusion-v1-4")
       (events (build_stable_diffusion_model hub name1 train_text_encoder
                  image_key caption_key w))
  /\ exists m,
       result (build_stable_diffusion_model hub name1 train_text_encoder
                 image_key caption_key w) = Ok m
       /\ vae m = AutoencoderKL hub "CompVis/stable-diffusion-v1-4" "vae"
       /\ text_encoder m
          = CLIPTextModel hub "CompVis/stable-diffusion-v1-4" "text_encoder"
       /\ noise_scheduler m
          = DDPMScheduler hub "CompVis/stable-diffusion-v1-4" "scheduler"
       /\ tokenizer m
          = CLIPTokenizer hub "CompVis/stable-diffusion-v1-4" "tokenizer".
Proof.
  split; [reflexivity|].
  unfold build_stable_diffusion_model, bind, gets, emit, ret, modify. simpl.
  destruct (xformers_available w); simpl.
  - split; [repeat constructor|]. eexists. repeat split.
  - split; [repeat constructor|]. eexists. repeat split.
Qed.

End DriverProperties.

(** ** The directory tree

    What [mkdir(parents=True)] makes of a tree: the directory and its
    ancestors are there afterwards, the new directory is empty, and every
    path off the way to it leads where it led before. *)

Section Tree.

Lemma fresh_dirs_dir (p : list string) : exists entries, fresh_dirs p = Dir entries.
Proof. destruct p; simpl; eauto. Qed.

Lemma walk_fresh_dirs_self (p : list string) : walk (fresh_dirs p) p = Some (Dir ∅).
Proof.
  induction p as [|c p IH]; simpl; [reflexivity|].
  rewrite lookup_singleton_eq. exact IH.
Qed.

Lemma walk_fresh_dirs_prefix (p q : list string) :
  q `prefix_of` p -> exists entries, walk (fresh_dirs p) q = Some (Dir entries).
Proof.
  revert q. induction p as [|c p IH]; intros [|d q] Hq; simpl.
  - eauto.
  - apply prefix_nil_not in Hq. contradiction.
  - eauto.
  - pose proof (prefix_cons_inv_1 _ _ _ _ Hq) as Hd. subst d.
    apply prefix_cons_inv_2 in Hq.
    rewrite lookup_singleton_eq. apply IH. exact Hq.
Qed.

Lemma walk_fresh_dirs_off (p q : list string) :
  ~ q `prefix_of` p -> walk (fresh_dirs p) q = None.
Proof.
  revert q. induction p as [|c p IH]; intros [|d q] Hq; simpl.
  - destruct Hq. apply prefix_nil.
  - rewrite lookup_empty. reflexivity.
  - destruct Hq. apply prefix_nil.
  - destruct (decide (d = c)) as [->|Hne].
    + rewrite lookup_singleton_eq. apply IH.
      intros Hp. apply Hq. apply prefix_cons. exact Hp.
    + rewrite lookup_singleton_ne by congruence. reflexivity.
Qed.


Lemma make_dirs_walk_prefix (p : list string) :
  forall n n' q, make_dirs n p = Ok n' -> q `prefix_of` p ->
    exists entries, walk n' q = Some (Dir entries).
Proof.
  induction p as [|c p IH]; intros n n' q Hmk Hq; simpl in *.
  - discriminate.
  - destruct n as [image|entries]; [discriminate|].
    destruct (entries !! c) as [child|] eqn:Hc.
    + destruct (make_dirs child p) as [child'|e] eqn:Hchild; [|discriminate].
      injection Hmk as <-.
      destruct q as [|d q]; simpl; [eauto|].
      pose proof (prefix_cons_inv_1 _ _ _ _ Hq) as Hd. subst d.
      apply prefix_cons_inv_2 in Hq.
      rewrite lookup_insert_eq. eapply IH; eassumption.
    + injection Hmk as <-.
      destruct q as [|d q]; simpl; [eauto|].
      pose proof (prefix_cons_inv_1 _ _ _ _ Hq) as Hd. subst d.
      apply prefix_cons_inv_2 in Hq.
      rewrite lookup_insert_eq. apply walk_fresh_dirs_prefix. exact Hq.
Qed.

Lemma make_dirs_walk_self (p : list string) :
  forall n n', make_dirs n p = Ok n' -> walk n' p = Some (Dir ∅).
Proof.
  induction p as [|c p IH]; intros n n' Hmk; simpl in *.
  - discriminate.
  - destruct n as [image|entries]; [discriminate|].
    destruct (entries !! c) as [child|] eqn:Hc.
    + destruct (make_dirs child p) as [child'|e] eqn:Hchild; [|discriminate].
      injection Hmk as <-. simpl. rewrite lookup_insert_eq. eapply IH; eassumption.
    + injection Hmk as <-. simpl. rewrite lookup_insert_eq.
      apply walk_fresh_dirs_self.
Qed.

Lemma make_dirs_frame (p : list string) :
  forall n n' q, make_dirs n p = Ok n' -> ~ q `prefix_of` p ->
    walk n' q = walk n q.
Proof.
  induction p as [|c p IH]; intros n n' q Hmk Hq; simpl in *.
  - discriminate.
  - destruct n as [image|entries]; [discriminate|].
    destruct q as [|d q]; [destruct Hq; apply prefix_nil|].
    destruct (entries !! c) as [child|] eqn:Hc.
    + destruct (make_dirs child p) as [child'|e] eqn:Hchild; [|discriminate].
      injection Hmk as <-. simpl.
      destruct (decide (d = c)) as [->|Hne].
      * rewrite lookup_insert_eq, Hc. eapply IH; [eassumption|].
        intros Hp. apply Hq. apply prefix_cons. exact Hp.
      * rewrite lookup_insert_ne by congruence. reflexivity.
    + injection Hmk as <-. simpl.
      destruct (decide (d = c)) as [->|Hne].
      * rewrite lookup_insert_eq, Hc. apply walk_fresh_dirs_off.
        intros Hp. apply Hq. apply prefix_cons. exact Hp.
      * rewrite lookup_insert_ne by congruence. reflexivity.
Qed.


End Tree.

(** ** The pre-generation step *)

Section PriorPreservation.

Context {F : Type} `{DType F} {Rng Sched : Type}.
Variable torch : Torch F Rng.
Variable helpers : Helpers.

(** The loop over the prompt dataloader stops at its first call of
    [generate], whose keywords do not bind: nothing is generated or saved. *)
Lemma generate_class_images_outcome (model : StableDiffusion F Rng Sched)
    (class_images_dir : list string) (cur_class_images : nat)
    (prompt_dataloader : list Example) (w : World Rng Sched) :
  generate_class_images torch helpers model class_images_dir cur_class_images
    prompt_dataloader w
  = match prompt_dataloader with
    | [] => MkOutcome (Ok tt) w []
    | _ :: _ =>
        MkOutcome
          (Raise (TypeError
             "generate() got an unexpected keyword argument 'disable_progress_bar'"))
          w []
    end.
Proof.
  destruct prompt_dataloader as [|example rest]; reflexivity.
Qed.

(** The whole outcome of the step: it lists the class directory, creating
    it first when it is missing, and when images are short it builds the
    prompt dataloader and stops at the first batch. *)
Lemma prior_preservation_outcome (config : Config)
    (model : StableDiffusion F Rng Sched) (eval_device_batch_size : nat)
    (w : World Rng Sched) :
  let dir := Path (class_data_root (dataset config)) in
  let counted (w' : World Rng Sched) (evs : list (Event F)) (cur : nat) :=
    if (Z.of_nat cur <? num_class_images config)%Z then
      let prompts :=
        repeat (class_prompt (dataset config))
          (Z.to_nat (num_class_images config - Z.of_nat cur)) in
      MkOutcome
        (match build_prompt_dataloader helpers prompts eval_device_batch_size with
         | [] => Ok tt
         | _ :: _ =>
             Raise (TypeError
               "generate() got an unexpected keyword argument 'disable_progress_bar'")
         end)
        w' (evs ++ [EvPromptDataloader prompts eval_device_batch_size])
    else MkOutcome (Ok tt) w' evs in
  prior_preservation torch helpers config model eval_device_batch_size w
  = if use_prior_preservation config then
      match walk (fs w) dir with
      | Some (Dir entries) => counted w [] (size entries)
      | Some (File _) => MkOutcome (Raise (OSError "NotADirectoryError")) w []
      | None =>
          match make_dirs (fs w) dir with
          | Ok tree => counted (set_fs tree w) [EvMkdir dir] 0%nat
          | Raise e => MkOutcome (Raise e) w [EvMkdir dir]
          end
      end
    else MkOutcome (Ok tt) w [].
Proof.
  cbv zeta. unfold prior_preservation.
  destruct (use_prior_preservation config); [|reflexivity].
  unfold path_exists, mkdir_parents, iterdir.
  unfold bind, gets, modify, emit, ret, lift, raise. simpl.
  destruct (walk (fs w) (Path (class_data_root (dataset config))))
    as [[image|entries]|] eqn:Hdir.
  - rewrite bool_decide_eq_true_2 by eauto. simpl. rewrite Hdir. reflexivity.
  - rewrite bool_decide_eq_true_2 by eauto. simpl. rewrite Hdir. simpl.
    rewrite length_map, length_map_to_list.
    destruct (Z.ltb _ _); simpl; [|reflexivity].
    rewrite generate_class_images_outcome.
    destruct (build_prompt_dataloader helpers _ _); reflexivity.
  - rewrite bool_decide_eq_false_2 by (intros [x Hx]; discriminate). simpl.
    destruct (make_dirs (fs w) _) as [tree|e] eqn:Hmk; simpl; [|reflexivity].
    rewrite (make_dirs_walk_self _ _ _ Hmk). simpl.
    rewrite length_map, length_map_to_list, map_size_empty.
    destruct (Z.ltb _ _); simpl; [|reflexivity].
    rewrite generate_class_images_outcome.
    destruct (build_prompt_dataloader helpers _ _); reflexivity.
Qed.

(** Whatever the tree holds, the step saves no image: every file it leaves
    was there before. *)
Lemma prior_preservation_saves_nothing (config : Config)
    (model : StableDiffusion F Rng Sched) (eval_device_batch_size : nat)
    (w : World Rng Sched) :
  Forall (fun e => is_save e = false)
    (events (prior_preservation torch helpers config model eval_device_batch_size w))
  /\ forall q image,
       walk (fs (world (prior_preservation torch helpers config model
                          eval_device_batch_size w))) q = Some (File image) ->
       walk (fs w) q = Some (File image).
Proof.
  rewrite prior_preservation_outcome. cbv zeta.
  destruct (use_prior_preservation config); [|split; [constructor | auto]].
  destruct (walk (fs w) _) as [[image|entries]|] eqn:Hdir.
  - split; [constructor | auto].
  - destruct (Z.ltb _ _); simpl; split; auto; repeat constructor.
  - destruct (make_dirs (fs w) _) as [tree|e] eqn:Hmk;
      [|split; [repeat constructor | auto]].
    assert (Hfiles : forall q image,
              walk tree q = Some (File image) -> walk (fs w) q = Some (File image)).
    { intros q image Hq.
      destruct (decide (q `prefix_of` Path (class_data_root (dataset config))))
        as [Hp|Hp].
      - destruct (make_dirs_walk_prefix _ _ _ _ Hmk Hp) as [entries He].
        congruence.
      - rewrite <- (make_dirs_frame _ _ _ _ Hmk Hp). exact Hq. }
    destruct (Z.ltb _ _); simpl; split; auto; repeat constructor.
Qed.

(** With enough entries already in the directory the step does nothing. *)
Lemma prior_preservation_enough_images (config : Config)
    (model : StableDiffusion F Rng Sched) (eval_device_batch_size : nat)
    (w : World Rng Sched) (entries : gmap string Node) :
  walk (fs w) (Path (class_data_root (dataset config))) = Some (Dir entries) ->
  (num_class_images config <= Z.of_nat (size entries))%Z ->
  prior_preservation torch helpers config model eval_device_batch_size w
  = MkOutcome (Ok tt) w [].
Proof.
  intros Hdir Hn. rewrite prior_preservation_outcome. cbv zeta. rewrite Hdir.
  destruct (use_prior_preservation config); [|reflexivity].
  destruct (Z.ltb_spec (Z.of_nat (size entries)) (num_class_images config)) as [Hlt|Hge];
    [lia | reflexivity].
Qed.

End PriorPreservation.

(** ** Runs of the small model *)

(** C5 (the code's defect).  Prior preservation on, two class images asked
    for, an empty class directory, a GPU: the driver stops with [TypeError] at
    the model building and the directory stays as it was; and the
    pre-generation step itself, run on a built model, creates the directory
    and stops with [TypeError] at its first call of [generate], leaving it
    empty, where two images were to be written. *)
Theorem prior_preservation_short_directory :
  result (main Small.small_torch Small.small_hub Small.small_helpers
            (Small.small_config (GradAccumInt 1) 2) (Small.small_world true))
  = Raise (TypeError
      "build_stable_diffusion_model() got an unexpected keyword argument 'train_unet'")
  /\ fs (world (main Small.small_torch Small.small_hub Small.small_helpers
                  (Small.small_config (GradAccumInt 1) 2) (Small.small_world true)))
     = Dir ∅
  /\ result (prior_preservation Small.small_torch Small.small_helpers
               (Small.small_config (GradAccumInt 1) 2) (Small.small_model "epsilon") 1
               (Small.small_world true))
     = Raise (TypeError
         "generate() got an unexpected keyword argument 'disable_progress_bar'")
  /\ fs (world (prior_preservation Small.small_torch Small.small_helpers
                  (Small.small_config (GradAccumInt 1) 2)
                  (Small.small_model "epsilon") 1 (Small.small_world true)))
     = Dir {[ "class_images" := Dir ∅ ]}.
Proof.
  repeat split; vm_compute; reflexivity.
Qed.

(** C1 on the small model, configured with the prediction type "sample". *)
Lemma forward_unknown_prediction_type_witness :
  result (forward Small.small_torch (Small.small_model "sample") Small.small_batch
            (Small.small_world false))
  = Raise (ValueError "Unknown prediction type sample")
  /\ Forall (fun e => is_unet_call e = false)
       (events (forward Small.small_torch (Small.small_model "sample")
                  Small.small_batch (Small.small_world false))).
Proof.
  apply (forward_unknown_prediction_type Small.small_torch
           (Small.small_model "sample") Small.small_batch
           (FloatTensor [[Float32.of_Z 1; Float32.of_Z 2];
                         [Float32.of_Z 3; Float32.of_Z 4]])
           (LongTensor [[7; 8]; [9; 10]]%Z)).
  - vm_compute. reflexivity.
  - vm_compute. reflexivity.
  - simpl. discriminate.
  - simpl. discriminate.
Defined.


(** On the small batch, two images with two captions, the small denoiser
    accepts its arguments and the pass returns. *)
Lemma forward_epsilon_small_run :
  is_raise (result (forward Small.small_torch (Small.small_model "epsilon")
                      Small.small_batch (Small.small_world false)))
  = false.
Proof. vm_compute. reflexivity. Qed.

(** C7 on the small configuration, without a GPU. *)
Lemma main_auto_grad_accum_on_cpu_witness :
  (exists msg,
     result (main Small.small_torch Small.small_hub Small.small_helpers
               (Small.small_config GradAccumAuto 2) (Small.small_world false))
     = Raise (ValueError msg))
  /\ Forall (fun e => is_work e = false)
       (events (main Small.small_torch Small.small_hub Small.small_helpers
                  (Small.small_config GradAccumAuto 2) (Small.small_world false)))
  /\ fs (world (main Small.small_torch Small.small_hub Small.small_helpers
                  (Small.small_config GradAccumAuto 2) (Small.small_world false)))
     = fs (Small.small_world false)
  /\ (valid_seed (seed (Small.small_config GradAccumAuto 2)) = true ->
      result (main Small.small_torch Small.small_hub Small.small_helpers
                (Small.small_config GradAccumAuto 2) (Small.small_world false))
      = Raise (ValueError grad_accum_message)
      /\ world (main Small.small_torch Small.small_hub Small.small_helpers
                  (Small.small_config GradAccumAuto 2) (Small.small_world false))
         = set_rng (manual_seed Small.small_torch
                      (seed (Small.small_config GradAccumAuto 2)))
             (Small.small_world false)
      /\ events (main Small.small_torch Small.small_hub Small.small_helpers
                   (Small.small_config GradAccumAuto 2) (Small.small_world false))
         = EvSeedAll (seed (Small.small_config GradAccumAuto 2))
           :: (if Nat.ltb 1 (world_size (Small.small_world false))
               then [EvInitializeDist "cpu"] else [])).
Proof.
  apply (main_auto_grad_accum_on_cpu Small.small_torch Small.small_hub
           Small.small_helpers (Small.small_config GradAccumAuto 2)
           (Small.small_world false)).
  - reflexivity.
  - reflexivity.
Defined.

(** The same run, evaluated: seed 17 is accepted and the exception is that
    of line 35. *)
Lemma main_auto_grad_accum_on_cpu_run :
  main Small.small_torch Small.small_hub Small.small_helpers
    (Small.small_config GradAccumAuto 2) (Small.small_world false)
  = MkOutcome (Raise (ValueError grad_accum_message))
      (set_rng 17%Z (Small.small_world false)) [EvSeedAll 17].
Proof. vm_compute. reflexivity. Qed.

(** One prompt and [num_images_per_prompt = 3]: one image all the same. *)
Lemma generate_one_prompt_one_image :
  result (generate Small.small_torch (Small.small_model "epsilon")
            ["a dog"] (Some 16%nat) (Some 8%nat) 2 7.5%Q None 3 1%Q
            (Small.small_world false))
  = Ok [fromarray [128; 128]%Z].
Proof. vm_compute. reflexivity. Qed.

(** Two prompts: the denoiser is handed two latent slices with three
    conditioning slices and the call ends in its exception. *)
Lemma generate_two_prompts_raises :
  result (generate Small.small_torch (Small.small_model "epsilon")
            ["a dog"; "a cat"] (Some 16%nat) (Some 8%nat) 2 7.5%Q None 3 1%Q
            (Small.small_world false))
  = Raise Small.batch_mismatch.
Proof. vm_compute. reflexivity. Qed.

(** The collaborators of the small model keep shapes, so it is an instance
    of [generate_one_image]. *)
Lemma generate_one_image_small (prompt : string) (h wd steps : nat)
    (guidance_scale : Q) (negative_prompt : option (list string))
    (num_images_per_prompt : nat) (eta : Q) (w : World Z (list spec_float)) :
  exists image,
    result (generate Small.small_torch (Small.small_model "epsilon") [prompt]
              (Some (S h)) (Some (S wd)) steps guidance_scale negative_prompt
              num_images_per_prompt eta w)
    = Ok [image].
Proof.
  apply generate_one_image; simpl; try reflexivity.
  - intros x t conditioning Hlen. unfold Small.batches_agree.
    rewrite Hlen, Nat.eqb_refl. simpl. eauto.
  - intros model_output t sample s. unfold Small.keep_shape.
    destruct (decide _) as [Heq|Hne]; [exact Heq | reflexivity].
Qed.

(** A run of [generate] at [guidance_scale = 1] on 32-bit floats whose step
    does not receive the conditional half of the denoiser's output: the
    halves are 1.0 and 2^-30, the guided prediction is 0.0. *)
Lemma generate_scale_one_float32_run :
  events (generate Small.small_torch Small.lopsided_model ["a dog"]
            (Some 8%nat) (Some 8%nat) 1 1%Q None 1 1%Q (Small.small_world false))
  = [EvTokenizer ["a dog"]; EvTokenizer [EmptyString];
     EvTextEncoder (LongTensor [[5%Z]]); EvTextEncoder (LongTensor [[0%Z]]);
     EvSetTimesteps 1;
     EvScaleModelInput [[S754_zero false]; [S754_zero false]] (Float32.of_Z 1)
       [[S754_zero false]; [S754_zero false]];
     EvUnet [[S754_zero false]; [S754_zero false]]
       (TimestepScalar (Float32.of_Z 1))
       [[S754_zero false]; [Float32.of_Z 5]]
       (Ok [[Float32.of_Z 1]; [Float32.pow2 (-30)]]);
     EvStep [[S754_zero false]] (Float32.of_Z 1) [[S754_zero false]];
     EvVaeDecode [[S754_zero false]]].
Proof. vm_compute. reflexivity. Qed.

(** The small scheduler's [set_timesteps] resets its state, so calls of
    [generate] on the small model agree from any two worlds. *)
Lemma generate_deterministic_small (prompt : list string) (height width : option nat)
    (steps : nat) (guidance_scale : Q) (w1 w2 : World Z (list spec_float)) :
  result (generate Small.small_torch (Small.small_model "epsilon") prompt height
            width steps guidance_scale None 1 1%Q w1)
  = result (generate Small.small_torch (Small.small_model "epsilon") prompt height
              width steps guidance_scale None 1 1%Q w2).
Proof.
  apply generate_deterministic_any_world. intros n s s'. reflexivity.
Qed.

(** The small hub hands out a denoiser whose channel count is the length of
    the name it is asked for; whatever name the caller gives, the model is
    built under "CompVis/stable-diffusion-v1-4" (29 characters). *)
Lemma build_small_hub_run :
  match result (build_stable_diffusion_model Small.small_hub
                  "stabilityai/stable-diffusion-2-1" false "image_tensor" "input_ids"
                  (Small.small_world true)) with
  | Ok m => in_channels (unet m) = 29%nat
  | Raise _ => False
  end.
Proof. vm_compute. reflexivity. Qed.

(** * Further properties of the forward pass *)

Section ForwardFurther.

Context {F : Type} `{DType F} {Rng Sched : Type}.
Variable torch : Torch F Rng.

Lemma draw_ints_length (low high : Z) (n : nat) (g g' : Rng) (ts : list Z) :
  draw_ints torch low high n g = (ts, g') -> length ts = n.
Proof.
  revert g g' ts. induction n as [|n IH]; simpl; intros g g' ts Hd.
  - inversion Hd. reflexivity.
  - destruct (uniform_int torch low high g) as [v g1].
    destruct (draw_ints torch low high n g1) as [vs g2] eqn:Hvs.
    inversion Hd. simpl. f_equal. eapply IH. exact Hvs.
Qed.

Lemma draw_ints_range (low high : Z) (n : nat) (g g' : Rng) (ts : list Z) :
  (forall g0, low <= fst (uniform_int torch low high g0) < high)%Z ->
  draw_ints torch low high n g = (ts, g') ->
  Forall (fun t => low <= t < high)%Z ts.
Proof.
  intros Hu. revert g g' ts. induction n as [|n IH]; simpl; intros g g' ts Hd.
  - inversion Hd. constructor.
  - pose proof (Hu g) as Hg.
    destruct (uniform_int torch low high g) as [v g1].
    destruct (draw_ints torch low high n g1) as [vs g2] eqn:Hvs.
    inversion Hd. constructor; [exact Hg | eapply IH; exact Hvs].
Qed.

(** X1.  With [prediction_type = "v_prediction"], a forward pass on a batch
    that holds the image and caption entries takes as its target
    [get_velocity(latents, noise, timesteps)], computed from the same
    latents, noise and timesteps that [add_noise] was given; the noise has
    the shape of the latents, and the denoiser is called once, last, on the
    noised latents: the pass returns its output with that target, or ends in
    the exception the denoiser raised. *)
Theorem forward_v_prediction_target (self : StableDiffusion F Rng Sched)
    (batch : gmap string (AnyTensor F)) (inputs conditioning : AnyTensor F)
    (w : World Rng Sched) :
  batch !! image_key self = Some inputs ->
  batch !! caption_key self = Some conditioning ->
  prediction_type (noise_scheduler self) = "v_prediction" ->
  exists latents timesteps noise,
    shape noise = shape latents
    /\ events (forward torch self batch w)
       = [EvVaeEncode inputs; EvTextEncoder conditioning;
          EvAddNoise latents noise timesteps;
          EvGetVelocity latents noise timesteps;
          EvUnet (add_noise (noise_scheduler self) latents noise timesteps)
            (TimestepBatch timesteps) (text_encoder self conditioning)
            (unet_call (unet self)
               (add_noise (noise_scheduler self) latents noise timesteps)
               (TimestepBatch timesteps) (text_encoder self conditioning))]
    /\ result (forward torch self batch w)
       = match unet_call (unet self)
                 (add_noise (noise_scheduler self) latents noise timesteps)
                 (TimestepBatch timesteps) (text_encoder self conditioning) with
         | Ok sample =>
             Ok (sample, get_velocity (noise_scheduler self) latents noise timesteps)
         | Raise e => Raise e
         end.
Proof.
  intros Hi Hc Hv.
  unfold forward, getitem. rewrite Hi, Hc, Hv.
  unfold bind, call_vae_encode, call_text_encoder, randint, randn_like,
    call_add_noise, call_get_velocity, call_unet, emit, ret, lift. simpl.
  destruct (encode_sample (vae self) inputs (rng w)) as [latents g1]. simpl.
  destruct (draw_ints torch 0 _ _ g1) as [ts g2]. simpl.
  destruct (draw_slices torch _ g2) as [noise g3] eqn:Hn. simpl.
  exists (mul_scalar latents (lit 0.18215%Q)), ts, noise.
  split; [eapply draw_slices_shape; exact Hn|].
  destruct (unet_call _ _ _ _) as [sample|e]; simpl; split; reflexivity.
Qed.

(** X2.  A batch that lacks the image entry or the caption entry makes the
    forward pass raise [KeyError] on the first missing key, before any
    collaborator is called and without drawing from the generator: the world
    is unchanged. *)
Theorem forward_missing_key (self : StableDiffusion F Rng Sched)
    (batch : gmap string (AnyTensor F)) (w : World Rng Sched) :
  batch !! image_key self = None \/ batch !! caption_key self = None ->
  forward torch self batch w
  = MkOutcome
      (Raise (KeyError (match batch !! image_key self with
                        | Some _ => caption_key self
                        | None => image_key self
                        end)))
      w [].
Proof.
  intros Hmiss. unfold forward, getitem.
  destruct (batch !! image_key self) as [inputs|].
  - destruct Hmiss as [Hm|Hm]; [discriminate|]. rewrite Hm. reflexivity.
  - reflexivity.
Qed.

(** X3.  Whatever the prediction type, the training timesteps handed to
    [add_noise] are one per latent slice and, when torch's [randint] keeps
    its bounds and the schedule is not empty, each is an index of the
    training schedule: [0 <= t < len(noise_scheduler)]. *)
Theorem forward_timesteps_in_schedule (self : StableDiffusion F Rng Sched)
    (batch : gmap string (AnyTensor F)) (w : World Rng Sched) :
  (forall low high g, (low < high)%Z ->
     (low <= fst (uniform_int torch low high g) < high)%Z) ->
  (0 < num_train_timesteps (noise_scheduler self))%Z ->
  Forall (fun e =>
            match e with
            | EvAddNoise latents _ ts =>
                length ts = length latents
                /\ Forall (fun t =>
                     (0 <= t < num_train_timesteps (noise_scheduler self))%Z) ts
            | _ => True
            end)
    (events (forward torch self batch w)).
Proof.
  intros Hu Hn.
  unfold forward, getitem.
  destruct (batch !! image_key self) as [inputs|]; [|constructor].
  destruct (batch !! caption_key self) as [conditioning|]; [|constructor].
  unfold bind, call_vae_encode, call_text_encoder, randint, randn_like,
    call_add_noise, call_get_velocity, call_unet, emit, ret, raise, lift. simpl.
  destruct (encode_sample (vae self) inputs (rng w)) as [latents g1]. simpl.
  destruct (draw_ints torch 0 _ _ g1) as [ts g2] eqn:Hts. simpl.
  destruct (draw_slices torch _ g2) as [noise g3]. simpl.
  assert (Hlen : length ts = length (mul_scalar latents (lit 0.18215%Q))).
  { eapply draw_ints_length. exact Hts. }
  assert (Hrange : Forall (fun t =>
            (0 <= t < num_train_timesteps (noise_scheduler self))%Z) ts).
  { eapply draw_ints_range; [|exact Hts]. intros g0. apply Hu. exact Hn. }
  destruct (String.eqb _ "epsilon"); simpl;
    [|destruct (String.eqb _ "v_prediction"); simpl];
    try (destruct (unet_call _ _ _ _) as [sample|e]; simpl);
    repeat constructor; assumption.
Qed.

(** X22.  Whatever the prediction type, a forward pass on a batch with
    both entries first samples the VAE's latent distribution from the
    generator state it finds, then encodes the caption, and hands
    [add_noise] those latents multiplied by 0.18215 together with one
    timestep per latent slice and noise of the latents' shape. *)
Theorem forward_scales_latents (self : StableDiffusion F Rng Sched)
    (batch : gmap string (AnyTensor F)) (inputs conditioning : AnyTensor F)
    (w : World Rng Sched) :
  batch !! image_key self = Some inputs ->
  batch !! caption_key self = Some conditioning ->
  let sampled := fst (encode_sample (vae self) inputs (rng w)) in
  exists timesteps noise rest,
    events (forward torch self batch w)
    = EvVaeEncode inputs
      :: EvTextEncoder conditioning
      :: EvAddNoise (mul_scalar sampled (lit 0.18215%Q)) noise timesteps
      :: rest
    /\ shape noise = shape sampled
    /\ length timesteps = length sampled.
Proof.
  intros Hi Hc. cbv zeta.
  unfold forward, getitem. rewrite Hi, Hc.
  unfold bind, call_vae_encode, call_text_encoder, randint, randn_like,
    call_add_noise, call_get_velocity, call_unet, emit, ret, raise, lift. simpl.
  destruct (encode_sample (vae self) inputs (rng w)) as [latents g1]. simpl.
  destruct (draw_ints torch 0 _ _ g1) as [ts g2] eqn:Hts. simpl.
  destruct (draw_slices torch _ g2) as [noise g3] eqn:Hn. simpl.
  assert (Hshape : shape noise = shape latents).
  { apply draw_slices_sizes in Hn. rewrite Hn.
    unfold shape, mul_scalar. rewrite map_map. apply map_ext.
    intros row. apply length_map. }
  assert (Hlen : length ts = length latents).
  { apply draw_ints_length in Hts. rewrite Hts.
    unfold mul_scalar. apply length_map. }
  destruct (String.eqb _ "epsilon"); simpl;
    [|destruct (String.eqb _ "v_prediction"); simpl];
    try (destruct (unet_call _ _ _ _) as [sample|e]; simpl);
    eexists ts, noise, _; (split; [reflexivity|]); split; assumption.
Qed.

End ForwardFurther.

(** * Further properties of [generate] *)

Section GenerateFurther.

Context {F : Type} `{DType F} {Rng Sched : Type}.
Variable torch : Torch F Rng.

(** The loop changes the scheduler object and nothing else of the world. *)
Lemma backward_diffusion_frame (self : StableDiffusion F Rng Sched)
    (text_embeddings : Tensor F) (guidance_scale : F) (ts : list F) :
  forall (latents : Tensor F) (w : World Rng Sched),
    exists s,
      world (backward_diffusion self text_embeddings guidance_scale ts latents w)
      = set_sched s w.
Proof.
  induction ts as [|t ts IH]; intros latents w; simpl.
  - exists (sched w). destruct w; reflexivity.
  - unfold bind, call_scale_model_input, call_unet, call_step, emit, ret, lift.
    destruct (scale_model_input _ _ _ _) as [x s1]. simpl.
    destruct (unet_call _ _ _ _) as [o|e]; simpl; [|exists s1; reflexivity].
    destruct (unpack2 (chunk _ _)) as [[uncond cond]|e]; simpl;
      [|exists s1; reflexivity].
    destruct (classifier_free_guidance _ _ _) as [pred|e]; simpl;
      [|exists s1; reflexivity].
    destruct (step _ _ _ _ _) as [prev s2]. simpl.
    destruct (IH prev (set_sched s2 (set_sched s1 w))) as [s Hs].
    destruct (backward_diffusion _ _ _ _ _ _) as [r w2 evs].
    simpl in *. exists s. rewrite Hs. reflexivity.
Qed.

(** Steps never outnumber denoiser calls, which never outnumber timesteps;
    a loop that does not raise makes one of each per timestep. *)
Lemma backward_diffusion_counts (self : StableDiffusion F Rng Sched)
    (text_embeddings : Tensor F) (guidance_scale : F) (ts : list F) :
  forall (latents : Tensor F) (w : World Rng Sched),
    let o := backward_diffusion self text_embeddings guidance_scale ts latents w in
    (count_events is_step (events o) <= count_events is_unet_call (events o))%nat
    /\ (count_events is_unet_call (events o) <= length ts)%nat
    /\ (is_raise (result o) = false ->
        count_events is_step (events o) = length ts
        /\ count_events is_unet_call (events o) = length ts).
Proof.
  unfold count_events.
  induction ts as [|t ts IH]; intros latents w; simpl.
  - split; [lia|]. split; [lia|]. intros _. split; reflexivity.
  - unfold bind, call_scale_model_input, call_unet, call_step, emit, ret, lift.
    destruct (scale_model_input _ _ _ _) as [x s1]. simpl.
    destruct (unet_call _ _ _ _) as [o|e]; simpl;
      [|split; [lia|]; split; [lia|]; discriminate].
    destruct (unpack2 (chunk _ _)) as [[uncond cond]|e]; simpl;
      [|split; [lia|]; split; [lia|]; discriminate].
    destruct (classifier_free_guidance _ _ _) as [pred|e]; simpl;
      [|split; [lia|]; split; [lia|]; discriminate].
    destruct (step _ _ _ _ _) as [prev s2]. simpl.
    specialize (IH prev (set_sched s2 (set_sched s1 w))).
    destruct (backward_diffusion _ _ _ _ _ _) as [r w2 evs].
    simpl in *. destruct IH as (Hle1 & Hle2 & Heq).
    split; [lia|]. split; [lia|].
    intros Hr. destruct (Heq Hr). split; lia.
Qed.

(** Every denoiser call of the loop carries the loop's conditioning and one
    of its timesteps. *)
Lemma backward_diffusion_conditioned (self : StableDiffusion F Rng Sched)
    (text_embeddings : Tensor F) (guidance_scale : F) (ts : list F) :
  forall (latents : Tensor F) (w : World Rng Sched),
    Forall (conditioned_on text_embeddings ts)
      (events (backward_diffusion self text_embeddings guidance_scale ts latents w)).
Proof.
  induction ts as [|t ts IH]; intros latents w; simpl.
  - constructor.
  - unfold bind, call_scale_model_input, call_unet, call_step, emit, ret, lift.
    destruct (scale_model_input _ _ _ _) as [x s1]. simpl.
    assert (Hhere : forall out,
              conditioned_on text_embeddings (t :: ts)
                (EvUnet x (TimestepScalar t) text_embeddings out)).
    { intros out. simpl. split; [reflexivity|].
      exists t. split; [reflexivity | now left]. }
    destruct (unet_call _ _ _ _) as [o|e]; simpl;
      [|constructor; [exact I|]; constructor; [apply Hhere | constructor]].
    destruct (unpack2 (chunk _ _)) as [[uncond cond]|e]; simpl;
      [|constructor; [exact I|]; constructor; [apply Hhere | constructor]].
    destruct (classifier_free_guidance _ _ _) as [pred|e]; simpl;
      [|constructor; [exact I|]; constructor; [apply Hhere | constructor]].
    destruct (step _ _ _ _ _) as [prev s2]. simpl.
    specialize (IH prev (set_sched s2 (set_sched s1 w))).
    destruct (backward_diffusion _ _ _ _ _ _) as [r w2 evs].
    simpl in *.
    constructor; [exact I|]. constructor; [exact (Hhere (Ok o))|].
    constructor; [exact I|].
    eapply List.Forall_impl; [|exact IH].
    intros [] He; simpl in *; try exact I.
    destruct He as (Hc & t' & Ht & Hin).
    split; [exact Hc|]. exists t'. split; [exact Ht | now right].
Qed.

(** X4.  A call of [generate] with a height and a width leaves torch's
    global generator in the state reached from [manual_seed(32)] by drawing
    the initial latents, whatever its state before the call and whether or
    not the loop then raises; the file system is untouched. *)
Theorem generate_leaves_seeded_generator (self : StableDiffusion F Rng Sched)
    (prompt : list string) (h wd : nat) (num_inference_steps : nat)
    (guidance_scale : Q) (negative_prompt : option (list string))
    (num_images_per_prompt : nat) (eta : Q) (w : World Rng Sched) :
  rng (world (generate torch self prompt (Some (S h)) (Some (S wd))
                num_inference_steps guidance_scale negative_prompt
                num_images_per_prompt eta w))
  = snd (draws torch (latent_size self (S h) (S wd)) (manual_seed torch 32))
  /\ fs (world (generate torch self prompt (Some (S h)) (Some (S wd))
                  num_inference_steps guidance_scale negative_prompt
                  num_images_per_prompt eta w))
     = fs w.
Proof.
  rewrite generate_with_sizes. cbv zeta.
  match goal with
  | |- context [backward_diffusion ?a ?b ?c ?d ?l0 ?w0] =>
      destruct (backward_diffusion_frame a b c d l0 w0) as [s Hs];
      destruct (backward_diffusion a b c d l0 w0) as [[lat|exn] w2 evs]
  end; simpl in *; subst w2; split; reflexivity.
Qed.

(** X5.  In any call of [generate] the scheduler steps at most as often as
    the denoiser is called, and the denoiser is called at most once per
    timestep of the schedule that [set_timesteps] installed. *)
Theorem generate_denoiser_calls_bounded (self : StableDiffusion F Rng Sched)
    (prompt : list string) (height width : option nat) (num_inference_steps : nat)
    (guidance_scale : Q) (negative_prompt : option (list string))
    (num_images_per_prompt : nat) (eta : Q) (w : World Rng Sched) :
  (count_events is_step
     (events (generate torch self prompt height width num_inference_steps
                guidance_scale negative_prompt num_images_per_prompt eta w))
   <= count_events is_unet_call
        (events (generate torch self prompt height width num_inference_steps
                   guidance_scale negative_prompt num_images_per_prompt eta w)))%nat
  /\ (count_events is_unet_call
        (events (generate torch self prompt height width num_inference_steps
                   guidance_scale negative_prompt num_images_per_prompt eta w))
      <= length (timesteps (inference_scheduler self)
                   (set_timesteps (inference_scheduler self) num_inference_steps
                      (sched w))))%nat.
Proof.
  destruct height as [[|h]|]; try (split; unfold generate, count_events; simpl; lia).
  all: destruct width as [[|wd]|]; try (split; unfold generate, count_events; simpl; lia).
  rewrite generate_with_sizes. cbv zeta.
  match goal with
  | |- context [backward_diffusion ?a ?b ?c ?d ?l0 ?w0] =>
      pose proof (backward_diffusion_counts a b c d l0 w0) as Hc;
      destruct (backward_diffusion a b c d l0 w0) as [[lat|exn] w2 evs]
  end; cbv zeta in Hc; simpl in Hc; destruct Hc as (Hle1 & Hle2 & _);
    unfold count_events, generate_preamble in *; simpl;
    rewrite ?List.filter_app, ?length_app; simpl; lia.
Qed.

(** X7.  Every denoiser call of [generate] is conditioned on the same
    tensor, the embedding of the empty prompt followed by the embeddings of
    the prompts, and is made at one of the timesteps of the schedule that
    [set_timesteps] installed. *)
Theorem generate_conditioning (self : StableDiffusion F Rng Sched)
    (prompt : list string) (height width : option nat) (num_inference_steps : nat)
    (guidance_scale : Q) (negative_prompt : option (list string))
    (num_images_per_prompt : nat) (eta : Q) (w : World Rng Sched) :
  Forall (conditioned_on (guidance_embeddings self prompt)
            (timesteps (inference_scheduler self)
               (set_timesteps (inference_scheduler self) num_inference_steps
                  (sched w))))
    (events (generate torch self prompt height width num_inference_steps
               guidance_scale negative_prompt num_images_per_prompt eta w)).
Proof.
  destruct height as [[|h]|]; try constructor.
  all: destruct width as [[|wd]|]; try constructor.
  rewrite generate_with_sizes. cbv zeta.
  match goal with
  | |- context [backward_diffusion ?a ?b ?c ?d ?l0 ?w0] =>
      pose proof (backward_diffusion_conditioned a b c d l0 w0) as Hc;
      destruct (backward_diffusion a b c d l0 w0) as [[lat|exn] w2 evs]
  end; simpl in *.
  - repeat (constructor; [exact I|]).
    apply Forall_app. split; [exact Hc | repeat constructor].
  - repeat (constructor; [exact I|]). exact Hc.
Qed.

(** X6.  Called with a height, a width and one prompt, [generate] returns
    exactly one image, after exactly one denoiser call and one scheduler
    step per timestep of the schedule, when the tokenizer returns one row
    per prompt and the text encoder one slice per row, the scheduler keeps
    shapes, the denoiser returns a tensor of its input's shape whenever it
    is given as many conditioning slices as sample slices, and the decoder
    keeps the batch size. *)
Theorem generate_one_call_per_timestep (self : StableDiffusion F Rng Sched)
    (prompt : string) (h wd : nat) (num_inference_steps : nat)
    (guidance_scale : Q) (negative_prompt : option (list string))
    (num_images_per_prompt : nat) (eta : Q) (w : World Rng Sched) :
  (forall prompts truncation,
     length (tokenizer self prompts truncation) = length prompts) ->
  (forall ids, length (text_encoder self (LongTensor ids)) = length ids) ->
  (forall x t s,
     shape (fst (scale_model_input (inference_scheduler self) x t s)) = shape x) ->
  (forall x t conditioning,
     length x = length conditioning ->
     exists out,
       unet_call (unet self) x (TimestepScalar t) conditioning = Ok out
       /\ shape out = shape x) ->
  (forall model_output t sample s,
     shape (fst (step (inference_scheduler self) model_output t sample s))
     = shape sample) ->
  (forall z, length (decode (vae self) z) = length z) ->
  let o := generate torch self [prompt] (Some (S h)) (Some (S wd))
             num_inference_steps guidance_scale negative_prompt
             num_images_per_prompt eta w in
  let schedule := timesteps (inference_scheduler self)
                    (set_timesteps (inference_scheduler self)
                       num_inference_steps (sched w)) in
  (exists image, result o = Ok [image])
  /\ count_events is_unet_call (events o) = length schedule
  /\ count_events is_step (events o) = length schedule.
Proof.
  intros Htok Henc Hscale Hunet Hstep Hdecode. cbv zeta.
  assert (Hemb : length (guidance_embeddings self [prompt]) = 2%nat).
  { unfold guidance_embeddings, torch_cat. simpl.
    rewrite !length_app, !Henc, !Htok. reflexivity. }
  rewrite generate_with_sizes. cbv zeta.
  match goal with
  | |- context [backward_diffusion ?a ?b ?c ?d ?l0 ?w0] =>
      destruct (backward_diffusion_one_sample a Hscale Hunet Hstep b c d Hemb l0 w0
                  (length (fst (draws torch (latent_size self (S h) (S wd))
                                  (manual_seed torch 32)))))
        as (lat & w' & evs & Hb & Hl);
      [unfold shape, mul_scalar; simpl; rewrite length_map; reflexivity|];
      pose proof (backward_diffusion_counts a b c d l0 w0) as Hc;
      rewrite Hb in *
  end.
  cbv zeta in Hc. simpl in Hc. destruct Hc as (_ & _ & Hc).
  destruct (Hc eq_refl) as [Hsteps Hcalls]. simpl.
  split.
  - unfold decode_images. rewrite !map_map.
    pose proof (Hdecode (scalar_mul (lit (1 / 0.18215)%Q) lat)) as Hd.
    assert (Hlen : length lat = 1%nat).
    { unfold shape in Hl. apply (f_equal (@length nat)) in Hl.
      rewrite length_map in Hl. exact Hl. }
    unfold scalar_mul in Hd at 2. rewrite length_map, Hlen in Hd.
    unfold clamp, add_scalar, div_scalar. rewrite !map_map.
    destruct (decode (vae self) _) as [|img [|img' rest]]; try discriminate.
    simpl. eauto.
  - unfold count_events, generate_preamble in *. simpl.
    rewrite !List.filter_app, !length_app. simpl. split; lia.
Qed.

(** X8.  When the schedule that [set_timesteps] installs is empty, a call
    of [generate] with a height and a width makes no denoiser call and no
    scheduler step: it decodes the initial noise, drawn from seed 32 and
    scaled by [init_noise_sigma] and by [1 / 0.18215]. *)
Theorem generate_without_timesteps (self : StableDiffusion F Rng Sched)
    (prompt : list string) (h wd : nat) (num_inference_steps : nat)
    (guidance_scale : Q) (negative_prompt : option (list string))
    (num_images_per_prompt : nat) (eta : Q) (w : World Rng Sched) :
  timesteps (inference_scheduler self)
    (set_timesteps (inference_scheduler self) num_inference_steps (sched w)) = [] ->
  let noise := [fst (draws torch (latent_size self (S h) (S wd))
                       (manual_seed torch 32))] in
  let sigma := init_noise_sigma (inference_scheduler self)
                 (set_timesteps (inference_scheduler self) num_inference_steps
                    (sched w)) in
  let o := generate torch self prompt (Some (S h)) (Some (S wd))
             num_inference_steps guidance_scale negative_prompt
             num_images_per_prompt eta w in
  result o = Ok (decode_images torch self (mul_scalar noise sigma))
  /\ events o
     = generate_preamble self prompt num_inference_steps
       ++ [EvVaeDecode (scalar_mul (lit (1 / 0.18215)%Q) (mul_scalar noise sigma))]
  /\ Forall (fun e => is_denoising e = false) (events o).
Proof.
  intros Hts. cbv zeta.
  rewrite generate_with_sizes. cbv zeta. rewrite Hts. simpl.
  split; [reflexivity|]. split; [reflexivity|]. repeat constructor.
Qed.

(** In the loop the denoiser's input has twice the slices of the latents,
    when scaling and stepping keep the number of slices. *)
Lemma backward_diffusion_batch_sizes (self : StableDiffusion F Rng Sched)
    (text_embeddings : Tensor F) (guidance_scale : F) (ts : list F) :
  (forall x t s,
     length (fst (scale_model_input (inference_scheduler self) x t s)) = length x) ->
  (forall model_output t sample s,
     length (fst (step (inference_scheduler self) model_output t sample s))
     = length sample) ->
  forall (latents : Tensor F) (w : World Rng Sched),
    Forall (unet_batch_sizes (length latents + length latents)
              (length text_embeddings))
      (events (backward_diffusion self text_embeddings guidance_scale ts latents w)).
Proof.
  intros Hscale Hstep.
  induction ts as [|t ts IH]; intros latents w; simpl.
  - constructor.
  - unfold bind, call_scale_model_input, call_unet, call_step, emit, ret, lift.
    pose proof (Hscale (torch_cat [latents; latents]) t (sched w)) as Hx.
    destruct (scale_model_input _ _ _ _) as [x s1]. simpl in *.
    assert (Hhere : forall out,
              unet_batch_sizes (length latents + length latents)
                (length text_embeddings)
                (EvUnet x (TimestepScalar t) text_embeddings out)).
    { intros out. simpl. split; [|reflexivity]. rewrite Hx. unfold torch_cat.
      simpl. rewrite !length_app. simpl. lia. }
    destruct (unet_call _ _ _ _) as [o|e]; simpl;
      [|constructor; [exact I|]; constructor; [apply Hhere | constructor]].
    destruct (unpack2 (chunk _ _)) as [[uncond cond]|e]; simpl;
      [|constructor; [exact I|]; constructor; [apply Hhere | constructor]].
    destruct (classifier_free_guidance _ _ _) as [pred|e]; simpl;
      [|constructor; [exact I|]; constructor; [apply Hhere | constructor]].
    pose proof (Hstep pred t latents s1) as Hprev.
    destruct (step _ _ _ _ _) as [prev s2]. simpl in *.
    specialize (IH prev (set_sched s2 (set_sched s1 w))).
    destruct (backward_diffusion _ _ _ _ _ _) as [r w2 evs].
    simpl in *. rewrite Hprev in IH.
    constructor; [exact I|]. constructor; [exact (Hhere (Ok o))|].
    constructor; [exact I | exact IH].
Qed.

(** X9.  When the tokenizer returns one row per prompt, the text encoder
    one slice per row, and the scheduler keeps batch sizes, every denoiser
    call of [generate] gets two latent slices and [1 + len(prompt)]
    conditioning slices: the two batch sizes agree for exactly one prompt. *)
Theorem generate_batch_sizes (self : StableDiffusion F Rng Sched)
    (prompt : list string) (height width : option nat) (num_inference_steps : nat)
    (guidance_scale : Q) (negative_prompt : option (list string))
    (num_images_per_prompt : nat) (eta : Q) (w : World Rng Sched) :
  (forall prompts truncation,
     length (tokenizer self prompts truncation) = length prompts) ->
  (forall ids, length (text_encoder self (LongTensor ids)) = length ids) ->
  (forall x t s,
     length (fst (scale_model_input (inference_scheduler self) x t s)) = length x) ->
  (forall model_output t sample s,
     length (fst (step (inference_scheduler self) model_output t sample s))
     = length sample) ->
  Forall (unet_batch_sizes 2 (1 + length prompt))
    (events (generate torch self prompt height width num_inference_steps
               guidance_scale negative_prompt num_images_per_prompt eta w)).
Proof.
  intros Htok Henc Hscale Hstep.
  destruct height as [[|h]|]; try constructor.
  all: destruct width as [[|wd]|]; try constructor.
  rewrite generate_with_sizes. cbv zeta.
  assert (Hemb : length (guidance_embeddings self prompt) = (1 + length prompt)%nat).
  { unfold guidance_embeddings, torch_cat. simpl.
    rewrite !length_app, !Henc, !Htok. simpl. lia. }
  match goal with
  | |- context [backward_diffusion ?a ?b ?c ?d ?l0 ?w0] =>
      pose proof (backward_diffusion_batch_sizes a b c d Hscale Hstep l0 w0) as Hc;
      destruct (backward_diffusion a b c d l0 w0) as [[lat|exn] w2 evs]
  end; rewrite Hemb in Hc; simpl in *.
  - repeat (constructor; [exact I|]).
    apply Forall_app. split; [exact Hc | repeat constructor].
  - repeat (constructor; [exact I|]). exact Hc.
Qed.

(** The loop threads the latents through its steps. *)
Lemma backward_diffusion_threaded (self : StableDiffusion F Rng Sched)
    (text_embeddings : Tensor F) (guidance_scale : F) (ts : list F) :
  forall (latents : Tensor F) (w : World Rng Sched),
    exists final,
      threaded (inference_scheduler self) latents
        (events (backward_diffusion self text_embeddings guidance_scale ts
                   latents w))
        final
      /\ match final with
         | Some last =>
             result (backward_diffusion self text_embeddings guidance_scale ts
                       latents w) = Ok last
         | None =>
             is_raise (result (backward_diffusion self text_embeddings
                                 guidance_scale ts latents w)) = true
         end.
Proof.
  induction ts as [|t ts IH]; intros latents w; simpl.
  - exists (Some latents). split; [constructor | reflexivity].
  - unfold bind, call_scale_model_input, call_unet, call_step, emit, ret, lift.
    destruct (scale_model_input _ _ _ _) as [x s1]. simpl.
    destruct (unet_call _ _ _ _) as [o|e]; simpl;
      [|exists None; split; [constructor | reflexivity]].
    destruct (unpack2 (chunk _ _)) as [[uncond cond]|e]; simpl;
      [|exists None; split; [constructor | reflexivity]].
    destruct (classifier_free_guidance _ _ _) as [pred|e]; simpl;
      [|exists None; split; [constructor | reflexivity]].
    destruct (step (inference_scheduler self) pred t latents s1) as [prev s2]
      eqn:Hstep.
    simpl.
    destruct (IH prev (set_sched s2 (set_sched s1 w))) as (final & Hchain & Hres).
    destruct (backward_diffusion _ _ _ _ _ _) as [r w2 evs].
    simpl in *. exists final. split; [|exact Hres].
    eapply threaded_next with (s := s1). rewrite Hstep. exact Hchain.
Qed.

(** X21.  A call of [generate] with a height and a width logs its
    preamble (the prompts tokenized with truncation, the empty prompt
    without, both encoded, the timesteps set), then a chain of iterations
    that starts from the seeded noise scaled by [init_noise_sigma] and hands
    each step's result to the next iteration, then decodes [1 / 0.18215]
    times the latents the last step returned and returns the images made of
    them; when an iteration raises, nothing is decoded. *)
Theorem generate_threads_latents (self : StableDiffusion F Rng Sched)
    (prompt : list string) (h wd : nat) (num_inference_steps : nat)
    (guidance_scale : Q) (negative_prompt : option (list string))
    (num_images_per_prompt : nat) (eta : Q) (w : World Rng Sched) :
  let o := generate torch self prompt (Some (S h)) (Some (S wd))
             num_inference_steps guidance_scale negative_prompt
             num_images_per_prompt eta w in
  let noise := [fst (draws torch (latent_size self (S h) (S wd))
                       (manual_seed torch 32))] in
  let sigma := init_noise_sigma (inference_scheduler self)
                 (set_timesteps (inference_scheduler self) num_inference_steps
                    (sched w)) in
  exists loop final,
    threaded (inference_scheduler self) (mul_scalar noise sigma) loop final
    /\ match final with
       | Some last =>
           events o
           = generate_preamble self prompt num_inference_steps ++ loop
             ++ [EvVaeDecode (scalar_mul (lit (1 / 0.18215)%Q) last)]
           /\ result o = Ok (decode_images torch self last)
       | None =>
           events o = generate_preamble self prompt num_inference_steps ++ loop
           /\ is_raise (result o) = true
       end.
Proof.
  cbv zeta. rewrite generate_with_sizes. cbv zeta.
  match goal with
  | |- context [backward_diffusion ?a ?b ?c ?d ?l0 ?w0] =>
      destruct (backward_diffusion_threaded a b c d l0 w0)
        as (final & Hchain & Hres);
      destruct (backward_diffusion a b c d l0 w0) as [[lat|exn] w2 evs]
  end; simpl in *.
  - exists evs, final. split; [exact Hchain|].
    destruct final as [last|]; [|discriminate].
    inversion Hres; subst. split; reflexivity.
  - exists evs, final. split; [exact Hchain|].
    destruct final as [last|]; [discriminate|]. split; reflexivity.
Qed.

(** X23.  Called with a height, a width and several prompts, on a denoiser
    that rejects a sample batch and a conditioning batch of different sizes,
    [generate] ends in the denoiser's exception at the first timestep of a
    schedule that is not empty: the denoiser is handed two latent slices
    against [1 + len(prompt)] conditioning slices, no scheduler step is made
    and nothing is decoded. *)
Theorem generate_rejects_several_prompts (self : StableDiffusion F Rng Sched)
    (prompt : list string) (h wd : nat) (num_inference_steps : nat)
    (guidance_scale : Q) (negative_prompt : option (list string))
    (num_images_per_prompt : nat) (eta : Q) (w : World Rng Sched)
    (t : F) (later : list F) :
  (forall prompts truncation,
     length (tokenizer self prompts truncation) = length prompts) ->
  (forall ids, length (text_encoder self (LongTensor ids)) = length ids) ->
  (forall x t0 s,
     length (fst (scale_model_input (inference_scheduler self) x t0 s)) = length x) ->
  (forall x t0 conditioning,
     length x <> length conditioning ->
     is_raise (unet_call (unet self) x t0 conditioning) = true) ->
  (1 < length prompt)%nat ->
  timesteps (inference_scheduler self)
    (set_timesteps (inference_scheduler self) num_inference_steps (sched w))
  = t :: later ->
  let o := generate torch self prompt (Some (S h)) (Some (S wd))
             num_inference_steps guidance_scale negative_prompt
             num_images_per_prompt eta w in
  exists latents x e,
    length x = 2%nat
    /\ length (guidance_embeddings self prompt) = (1 + length prompt)%nat
    /\ unet_call (unet self) x (TimestepScalar t) (guidance_embeddings self prompt)
       = Raise e
    /\ result o = Raise e
    /\ events o
       = generate_preamble self prompt num_inference_steps
         ++ [EvScaleModelInput (torch_cat [latents; latents]) t x;
             EvUnet x (TimestepScalar t) (guidance_embeddings self prompt)
               (Raise e)].
Proof.
  intros Htok Henc Hscale Hunet Hprompt Hts. cbv zeta.
  assert (Hemb : length (guidance_embeddings self prompt) = (1 + length prompt)%nat).
  { unfold guidance_embeddings, torch_cat. simpl.
    rewrite !length_app, !Henc, !Htok. simpl. lia. }
  rewrite generate_with_sizes. cbv zeta. rewrite Hts. simpl.
  unfold bind, call_scale_model_input, call_unet, call_step, emit, ret, lift.
  match goal with
  | |- context [scale_model_input ?sch ?y ?t0 ?s0] =>
      pose proof (Hscale y t0 s0) as Hx;
      destruct (scale_model_input sch y t0 s0) as [x s1]
  end. simpl in *.
  pose proof (Hunet x (TimestepScalar t) (guidance_embeddings self prompt)) as Hr.
  destruct (unet_call (unet self) x (TimestepScalar t)
              (guidance_embeddings self prompt)) as [out|e] eqn:Hcall.
  - assert (Hne : length x <> length (guidance_embeddings self prompt)).
    { rewrite Hx, Hemb. lia. }
    specialize (Hr Hne). discriminate.
  - simpl. eexists _, x, e.
    split; [exact Hx|].
    split; [exact Hemb|].
    split; [exact Hcall|]. split; reflexivity.
Qed.

End GenerateFurther.

(** * Further properties of model building and of the driver *)

Section DriverFurther.

Context {F : Type} `{DType F} {Rng Sched : Type}.
Variable torch : Torch F Rng.
Variable hub : Hub F Rng Sched.
Variable helpers : Helpers.

(** X10.  The model that [build_stable_diffusion_model] returns carries the
    caller's [image_key] and [caption_key] and the default loss; its denoiser
    has memory-efficient attention enabled exactly when xformers is
    available; and its pipeline is built around the model's own text
    encoder, VAE and denoiser (the enabled one), not around fresh copies. *)
Theorem build_shares_components (model_name_or_path : string)
    (train_text_encoder : bool) (image_column caption_column : string)
    (w : World Rng Sched) :
  exists m,
    result (build_stable_diffusion_model hub model_name_or_path train_text_encoder
              image_column caption_column w) = Ok m
    /\ image_key m = image_column
    /\ caption_key m = caption_column
    /\ loss_fn m = mse_loss hub
    /\ unet m
       = (if xformers_available w
          then enable_xformers_memory_efficient_attention hub
                 (UNet2DConditionModel hub "CompVis/stable-diffusion-v1-4" "unet")
          else UNet2DConditionModel hub "CompVis/stable-diffusion-v1-4" "unet")
    /\ pipeline m
       = StableDiffusionPipeline hub "CompVis/stable-diffusion-v1-4"
           (text_encoder m) (vae m) (unet m)
    /\ count_events (fun e => match e with EvEnableXformers => true | _ => false end)
         (events (build_stable_diffusion_model hub model_name_or_path
                    train_text_encoder image_column caption_column w))
       = (if xformers_available w then 1 else 0)%nat.
Proof.
  unfold build_stable_diffusion_model, bind, gets, emit, ret, modify. simpl.
  destruct (xformers_available w); simpl; eexists; repeat split.
Qed.

(** The whole outcome of [main]: it stops at the seeding when the seed is
    rejected; otherwise it reseeds torch's generator, then stops at the
    device check, at one of the two batch-size computations, or at the call
    that builds the model. *)
Lemma main_outcome (config : Config) (w : World Rng Sched) :
  let device := if cuda_is_available w then "gpu" else "cpu" in
  let start :=
    EvSeedAll (seed config)
    :: (if Nat.ltb 1 (world_size w) then [EvInitializeDist device] else []) in
  let seeded := set_rng (manual_seed torch (seed config)) w in
  main torch hub helpers config w
  = if valid_seed (seed config) then
      if match grad_accum config with
         | GradAccumAuto => negb (cuda_is_available w)
         | GradAccumInt _ => false
         end
      then MkOutcome (Raise (ValueError grad_accum_message)) seeded start
      else
        match calculate_batch_size_info helpers (global_train_batch_size config)
                (world_size w) with
        | Raise e => MkOutcome (Raise e) seeded start
        | Ok _ =>
            match calculate_batch_size_info helpers (global_eval_batch_size config)
                    (world_size w) with
            | Raise e => MkOutcome (Raise e) seeded start
            | Ok _ =>
                MkOutcome
                  (Raise (TypeError
                     "build_stable_diffusion_model() got an unexpected keyword argument 'train_unet'"))
                  seeded (start ++ [EvPrint "Building Composer model"])
            end
        end
    else
      MkOutcome
        (Raise (ValueError ("Seed " +:+ pretty (seed config)
                            +:+ " is invalid. It must be on [0; 2^32 - 1]")))
        w [EvSeedAll (seed config)].
Proof.
  cbv zeta.
  unfold main, seed_all, bind, gets, emit, ret, raise, lift, py_call, modify. simpl.
  destruct (valid_seed (seed config)); simpl; [|reflexivity].
  destruct (cuda_is_available w); simpl;
    destruct (Nat.ltb 1 (world_size w)); simpl;
    destruct (grad_accum config); simpl;
    destruct (calculate_batch_size_info helpers (global_train_batch_size config)
                (world_size w)); simpl;
    try destruct (calculate_batch_size_info helpers (global_eval_batch_size config)
                    (world_size w)); simpl;
    reflexivity.
Qed.

(** X11.  With a seed that [seed_all] accepts, and past the device check,
    an exception of [calculate_batch_size_info], on the train batch size or
    else on the eval batch size, is the exception of [main]: it is raised
    after seeding (and process-group start-up) only, before the model
    building is announced, and of the world only torch's generator has
    changed, reseeded with [config.seed]. *)
Theorem main_batch_size_error_propagates (config : Config) (w : World Rng Sched)
    (e : Exn) :
  valid_seed (seed config) = true ->
  grad_accum config <> GradAccumAuto \/ cuda_is_available w = true ->
  calculate_batch_size_info helpers (global_train_batch_size config) (world_size w)
  = Raise e
  \/ (exists n,
        calculate_batch_size_info helpers (global_train_batch_size config)
          (world_size w) = Ok n
        /\ calculate_batch_size_info helpers (global_eval_batch_size config)
             (world_size w) = Raise e) ->
  main torch hub helpers config w
  = MkOutcome (Raise e) (set_rng (manual_seed torch (seed config)) w)
      (EvSeedAll (seed config)
       :: (if Nat.ltb 1 (world_size w)
           then [EvInitializeDist (if cuda_is_available w then "gpu" else "cpu")]
           else [])).
Proof.
  intros Hseed Hcheck Hcalc. rewrite main_outcome. cbv zeta. rewrite Hseed.
  assert (Hpass : match grad_accum config with
                  | GradAccumAuto => negb (cuda_is_available w)
                  | GradAccumInt _ => false
                  end = false).
  { destruct (grad_accum config); [|reflexivity].
    destruct Hcheck as [Hne|Hcuda]; [congruence | rewrite Hcuda; reflexivity]. }
  rewrite Hpass.
  destruct Hcalc as [Htrain|(n & Htrain & Heval)].
  - rewrite Htrain. reflexivity.
  - rewrite Htrain, Heval. reflexivity.
Qed.

(** X12.  On every path [main] first calls [seed_all] with
    [config.seed], and stops there when the seed is rejected; otherwise it
    then initialises the process group exactly when there is more than one
    process, for the device "gpu" when CUDA is available and "cpu"
    otherwise; whatever else it logs is at most the announcement of the
    model building. *)
Theorem main_seeds_first (config : Config) (w : World Rng Sched) :
  exists rest,
    events (main torch hub helpers config w)
    = EvSeedAll (seed config)
      :: (if valid_seed (seed config)
          then (if Nat.ltb 1 (world_size w)
                then [EvInitializeDist
                        (if cuda_is_available w then "gpu" else "cpu")]
                else [])
               ++ rest
          else [])
    /\ (rest = [] \/ rest = [EvPrint "Building Composer model"]).
Proof.
  rewrite main_outcome. cbv zeta.
  destruct (valid_seed (seed config)); [|exists []; split; [reflexivity | now left]].
  destruct (match grad_accum config with
            | GradAccumAuto => negb (cuda_is_available w)
            | GradAccumInt _ => false
            end); simpl.
  - exists []. rewrite app_nil_r. split; [reflexivity | now left].
  - destruct (calculate_batch_size_info helpers (global_train_batch_size config)
                (world_size w)); simpl.
    + destruct (calculate_batch_size_info helpers (global_eval_batch_size config)
                  (world_size w)); simpl.
      * exists [EvPrint "Building Composer model"].
        split; [reflexivity | now right].
      * exists []. rewrite app_nil_r. split; [reflexivity | now left].
    + exists []. rewrite app_nil_r. split; [reflexivity | now left].
Qed.

End DriverFurther.

(** * Further properties of the pre-generation step *)

Section PriorPreservationFurther.

Context {F : Type} `{DType F} {Rng Sched : Type}.
Variable torch : Torch F Rng.
Variable helpers : Helpers.



(** X15.  The saving loop never writes an image: handed the images a call
    of [generate] returned, it passes the first one, a PIL image, to
    [to_pil_image], which takes tensors and arrays only, and ends in that
    [TypeError] before hashing or saving anything; on an empty list it does
    nothing. *)
Theorem save_class_images_outcome (class_images_dir : list string)
    (example : Example) (cur_class_images i : nat) (images : list Image)
    (w : World Rng Sched) :
  exists msg,
    save_class_images (F := F) helpers class_images_dir example cur_class_images
      i images w
    = MkOutcome
        (match images with
         | [] => Ok tt
         | _ :: _ => Raise (TypeError msg)
         end)
        w [].
Proof.
  eexists. destruct images as [|image images]; reflexivity.
Qed.

Lemma no_dash_prefix (s1 s2 t1 t2 : string) :
  no_dash s1 = true -> no_dash s2 = true ->
  s1 +:+ "-" +:+ t1 = s2 +:+ "-" +:+ t2 -> s1 = s2.
Proof.
  revert s2. induction s1 as [|c s1 IH]; intros [|d s2] H1 H2 Heq; simpl in *.
  - reflexivity.
  - injection Heq as Hc _. subst d. simpl in H2. discriminate.
  - injection Heq as Hc _. subst c. simpl in H1. discriminate.
  - injection Heq as Hc Hrest. subst d.
    apply andb_prop in H1 as [_ H1]. apply andb_prop in H2 as [_ H2].
    f_equal. apply IH; assumption.
Qed.

Lemma pretty_N_go_no_dash (x : N) (s : string) :
  no_dash s = true -> no_dash (pretty_N_go x s) = true.
Proof.
  revert s. induction (N.lt_wf_0 x) as [x _ IH]; intros s Hs.
  assert (x = 0 \/ 0 < x)%N as [->|Hx] by lia.
  - rewrite pretty_N_go_0. exact Hs.
  - rewrite pretty_N_go_step by exact Hx. apply IH.
    + apply N.div_lt; lia.
    + simpl. rewrite Hs, andb_true_r.
      unfold pretty_N_char. repeat case_match; reflexivity.
Qed.

Lemma pretty_nat_no_dash (n : nat) : no_dash (pretty n) = true.
Proof.
  unfold pretty, pretty_nat, pretty, pretty_N.
  case_decide; [reflexivity|]. apply pretty_N_go_no_dash. reflexivity.
Qed.

(** Equal file names have equal indices: the index is the part of the name
    before its first hyphen. *)
Lemma class_image_filename_inj (cur_class_images index index' : nat)
    (image image' : Image) :
  class_image_filename helpers cur_class_images index image
  = class_image_filename helpers cur_class_images index' image' ->
  index = index'.
Proof.
  unfold class_image_filename. intros Heq.
  apply no_dash_prefix in Heq; try apply pretty_nat_no_dash.
  apply (inj pretty) in Heq. lia.
Qed.

(** X16.  Two class images with different indices get different file
    names, even when their bytes, and so their hashes, are equal: within a
    batch no image overwrites another. *)
Theorem class_image_filenames_distinct (cur_class_images index index' : nat)
    (image image' : Image) :
  index <> index' ->
  class_image_filename helpers cur_class_images index image
  <> class_image_filename helpers cur_class_images index' image'.
Proof.
  intros Hne Heq. apply Hne.
  eapply class_image_filename_inj. exact Heq.
Qed.

End PriorPreservationFurther.

(** * Properties of the script's entry *)

Section ScriptProperties.

Context {F : Type} `{DType F} {Rng Sched DictConfig : Type}.
Variable torch : Torch F Rng.
Variable hub : Hub F Rng Sched.
Variable helpers : Helpers.
Variable omegaconf : OmegaConf DictConfig.

(** X18.  Run without a path argument, or with a first argument that names
    neither a yaml file nor anything in the directory tree, the script
    raises the usage [ValueError] at once: nothing is seeded, loaded or
    written. *)
Theorem script_usage_error (argv : list string) (w : World Rng Sched) :
  (length argv < 2)%nat
  \/ (exists yaml_path,
        nth_error argv 1 = Some yaml_path
        /\ os_path_exists omegaconf yaml_path w = false) ->
  script torch hub helpers omegaconf argv w
  = MkOutcome (Raise (ValueError usage_message)) w [].
Proof.
  intros [Hshort|(yaml_path & Hpath & Hmissing)].
  - destruct argv as [|program [|yaml_path args_list]]; simpl in *;
      try reflexivity; lia.
  - destruct argv as [|program [|yaml_path' args_list]]; simpl in *;
      try reflexivity.
    inversion Hpath; subst yaml_path'.
    unfold script, bind, gets. simpl. rewrite Hmissing. reflexivity.
Qed.

(** X19.  Whatever the command line, the yaml files and the environment,
    the script ends in an exception, never builds the model, a dataloader or
    the trainer, never starts training, and leaves the file system as it
    found it. *)
Theorem script_never_trains (argv : list string) (w : World Rng Sched) :
  is_raise (result (script torch hub helpers omegaconf argv w)) = true
  /\ Forall (fun e => is_work e = false)
       (events (script torch hub helpers omegaconf argv w))
  /\ fs (world (script torch hub helpers omegaconf argv w)) = fs w.
Proof.
  destruct argv as [|program [|yaml_path args_list]];
    try (repeat split; constructor).
  unfold script, load_yaml.
  unfold bind, gets, lift, raise. simpl.
  destruct (os_path_exists omegaconf yaml_path w); simpl;
    [|repeat split; constructor].
  destruct (yaml_files omegaconf !! yaml_path) as [parsed|]; simpl.
  2:{ destruct (walk (fs w) (Path yaml_path)) as [[image|entries]|]; simpl;
        try (repeat split; constructor).
      destruct (load_image omegaconf image) as [yaml_config|e]; simpl;
        [|repeat split; constructor].
      destruct (from_cli omegaconf args_list) as [cli_config|e]; simpl;
        [|repeat split; constructor].
      destruct (merge omegaconf yaml_config cli_config) as [config|e]; simpl;
        [|repeat split; constructor].
      rewrite main_outcome. cbv zeta.
      destruct (valid_seed (seed config));
        [|repeat split; repeat constructor].
      destruct (match grad_accum config with
                | GradAccumAuto => negb (cuda_is_available w)
                | GradAccumInt _ => false
                end); simpl.
      - destruct (Nat.ltb 1 (world_size w)); repeat split; repeat constructor.
      - destruct (calculate_batch_size_info helpers (global_train_batch_size config)
                    (world_size w)); simpl;
          [destruct (calculate_batch_size_info helpers
                       (global_eval_batch_size config) (world_size w)); simpl|];
          destruct (Nat.ltb 1 (world_size w)); repeat split; repeat constructor. }
  destruct parsed as [yaml_config|e]; simpl; [|repeat split; constructor].
  destruct (from_cli omegaconf args_list) as [cli_config|e]; simpl;
    [|repeat split; constructor].
  destruct (merge omegaconf yaml_config cli_config) as [config|e]; simpl;
    [|repeat split; constructor].
  rewrite main_outcome. cbv zeta.
  destruct (valid_seed (seed config)); [|repeat split; repeat constructor].
  destruct (match grad_accum config with
            | GradAccumAuto => negb (cuda_is_available w)
            | GradAccumInt _ => false
            end); simpl.
  - destruct (Nat.ltb 1 (world_size w)); repeat split; repeat constructor.
  - destruct (calculate_batch_size_info helpers (global_train_batch_size config)
                (world_size w)); simpl;
      [destruct (calculate_batch_size_info helpers
                   (global_eval_batch_size config) (world_size w)); simpl|];
      destruct (Nat.ltb 1 (world_size w)); repeat split; repeat constructor.
Qed.

End ScriptProperties.

(** * Splitting the denoiser's output *)

Section Halves.

Context {F : Type}.

(** A denoiser output of [2 n] slices, [n] positive, is chunked into its
    first [n] and its last [n] slices. *)
Lemma chunk_halves (out : Tensor F) (n : nat) :
  (0 < n)%nat ->
  length out = (n + n)%nat ->
  chunk out 2 = [firstn n out; skipn n out].
Proof.
  intros Hn Hlen.
  unfold chunk. rewrite Hlen.
  assert (Hsize : Nat.div (n + n + 2 - 1) 2 = n).
  { symmetry. apply Nat.div_unique with (r := 1%nat); lia. }
  rewrite Hsize.
  destruct (Nat.eqb_spec (n + n) 0) as [Hz|_]; [lia|].
  destruct n as [|m]; [lia|].
  assert (Hfirst : length (firstn (S m) out) = S m)
    by (rewrite length_firstn; lia).
  assert (Hlast : length (skipn (S m) out) = S m)
    by (rewrite length_skipn; lia).
  replace (S m + S m)%nat with (S (S (m + m))) by lia.
  cbn [split_every].
  set (head := firstn (S m) out) in *.
  set (tail := skipn (S m) out) in *.
  destruct out as [|slice out']; [discriminate|].
  destruct tail as [|slice' rest]; [discriminate|].
  rewrite firstn_all2 by lia.
  rewrite skipn_all2 by lia.
  destruct (m + m)%nat; reflexivity.
Qed.

End Halves.

(** * The further properties on the small model *)

(** X1 on the small model, configured with "v_prediction". *)
Lemma forward_v_prediction_target_witness :
  exists latents timesteps noise,
    shape noise = shape latents
    /\ events (forward Small.small_torch (Small.small_model "v_prediction")
                 Small.small_batch (Small.small_world false))
       = [EvVaeEncode (FloatTensor [[Float32.of_Z 1; Float32.of_Z 2];
                                    [Float32.of_Z 3; Float32.of_Z 4]]);
          EvTextEncoder (LongTensor [[7; 8]; [9; 10]]%Z);
          EvAddNoise latents noise timesteps;
          EvGetVelocity latents noise timesteps;
          EvUnet (add_noise (noise_scheduler (Small.small_model "v_prediction"))
                    latents noise timesteps)
            (TimestepBatch timesteps)
            (text_encoder (Small.small_model "v_prediction")
               (LongTensor [[7; 8]; [9; 10]]%Z))
            (unet_call (unet (Small.small_model "v_prediction"))
               (add_noise (noise_scheduler (Small.small_model "v_prediction"))
                  latents noise timesteps)
               (TimestepBatch timesteps)
               (text_encoder (Small.small_model "v_prediction")
                  (LongTensor [[7; 8]; [9; 10]]%Z)))]
    /\ result (forward Small.small_torch (Small.small_model "v_prediction")
                 Small.small_batch (Small.small_world false))
       = match unet_call (unet (Small.small_model "v_prediction"))
                 (add_noise (noise_scheduler (Small.small_model "v_prediction"))
                    latents noise timesteps)
                 (TimestepBatch timesteps)
                 (text_encoder (Small.small_model "v_prediction")
                    (LongTensor [[7; 8]; [9; 10]]%Z)) with
         | Ok sample =>
             Ok (sample,
                 get_velocity (noise_scheduler (Small.small_model "v_prediction"))
                   latents noise timesteps)
         | Raise e => Raise e
         end.
Proof.
  apply (forward_v_prediction_target Small.small_torch
           (Small.small_model "v_prediction") Small.small_batch
           (FloatTensor [[Float32.of_Z 1; Float32.of_Z 2];
                         [Float32.of_Z 3; Float32.of_Z 4]])
           (LongTensor [[7; 8]; [9; 10]]%Z)).
  - vm_compute. reflexivity.
  - vm_compute. reflexivity.
  - reflexivity.
Defined.

(** X2 on a batch without captions. *)
Lemma forward_missing_key_witness :
  forward Small.small_torch (Small.small_model "epsilon") Small.uncaptioned_batch
    (Small.small_world false)
  = MkOutcome
      (Raise (KeyError
         (match Small.uncaptioned_batch !! image_key (Small.small_model "epsilon") with
          | Some _ => caption_key (Small.small_model "epsilon")
          | None => image_key (Small.small_model "epsilon")
          end)))
      (Small.small_world false) [].
Proof.
  apply (forward_missing_key Small.small_torch (Small.small_model "epsilon")
           Small.uncaptioned_batch (Small.small_world false)).
  right. vm_compute. reflexivity.
Defined.

(** X3 on the small model: its [randint] keeps its bounds. *)
Lemma forward_timesteps_in_schedule_witness :
  Forall (fun e =>
            match e with
            | EvAddNoise latents _ ts =>
                length ts = length latents
                /\ Forall (fun t =>
                     (0 <= t < num_train_timesteps
                                (noise_scheduler (Small.small_model "epsilon")))%Z) ts
            | _ => True
            end)
    (events (forward Small.small_torch (Small.small_model "epsilon")
               Small.small_batch (Small.small_world false))).
Proof.
  apply (forward_timesteps_in_schedule Small.small_torch
           (Small.small_model "epsilon") Small.small_batch (Small.small_world false)).
  - intros low high g Hlt. simpl.
    pose proof (Z.mod_pos_bound g (high - low)) as Hb. lia.
  - simpl. lia.
Defined.

(** The small model's collaborators keep shapes. *)
Lemma small_step_shape (model_output : Tensor spec_float) (t : spec_float)
    (sample : Tensor spec_float) (s : list spec_float) :
  shape (fst (step Small.small_inference_scheduler model_output t sample s))
  = shape sample.
Proof.
  simpl. unfold Small.keep_shape.
  destruct (decide _) as [Heq|Hne]; [exact Heq | reflexivity].
Qed.

Lemma small_step_length (model_output : Tensor spec_float) (t : spec_float)
    (sample : Tensor spec_float) (s : list spec_float) :
  length (fst (step Small.small_inference_scheduler model_output t sample s))
  = length sample.
Proof.
  pose proof (small_step_shape model_output t sample s) as Hs.
  unfold shape in Hs. apply (f_equal (@length nat)) in Hs.
  rewrite !length_map in Hs. exact Hs.
Qed.

(** The small denoiser accepts equal batch sizes and rejects others. *)
Lemma small_unet_accepts (x : Tensor spec_float) (t : spec_float)
    (conditioning : Tensor spec_float) :
  length x = length conditioning ->
  exists out,
    unet_call (Small.small_unet 1) x (TimestepScalar t) conditioning = Ok out
    /\ shape out = shape x.
Proof.
  intros Hlen. simpl. unfold Small.batches_agree.
  rewrite Hlen, Nat.eqb_refl. simpl. eauto.
Qed.

Lemma small_unet_rejects (x : Tensor spec_float) (t : Timestep spec_float)
    (conditioning : Tensor spec_float) :
  length x <> length conditioning ->
  is_raise (unet_call (Small.small_unet 1) x t conditioning) = true.
Proof.
  intros Hne. simpl. unfold Small.batches_agree.
  apply Nat.eqb_neq in Hne. rewrite Hne. reflexivity.
Qed.

(** X6 on the small model: one prompt, three timesteps. *)
Lemma generate_one_call_per_timestep_witness :
  let o := generate Small.small_torch (Small.small_model "epsilon")
             ["a dog"] (Some 16%nat) (Some 8%nat) 3 7.5%Q None 4 1%Q
             (Small.small_world false) in
  let schedule := timesteps (inference_scheduler (Small.small_model "epsilon"))
                    (set_timesteps (inference_scheduler (Small.small_model "epsilon"))
                       3 (sched (Small.small_world false))) in
  (exists image, result o = Ok [image])
  /\ count_events is_unet_call (events o) = length schedule
  /\ count_events is_step (events o) = length schedule.
Proof.
  apply (generate_one_call_per_timestep Small.small_torch
           (Small.small_model "epsilon") "a dog" 15 7 3 7.5%Q None 4 1%Q
           (Small.small_world false)).
  - intros prompts truncation. simpl. unfold Small.small_tokenizer.
    apply length_map.
  - intros ids. simpl. apply length_map.
  - intros x t s. reflexivity.
  - intros x t conditioning. apply small_unet_accepts.
  - intros model_output t sample s. apply small_step_shape.
  - intros z. reflexivity.
Defined.

(** X23 on the small model: two prompts, three timesteps. *)
Lemma generate_rejects_several_prompts_witness :
  let o := generate Small.small_torch (Small.small_model "epsilon")
             ["a dog"; "a cat"] (Some 16%nat) (Some 8%nat) 3 7.5%Q None 1 1%Q
             (Small.small_world false) in
  exists latents x e,
    length x = 2%nat
    /\ length (guidance_embeddings (Small.small_model "epsilon") ["a dog"; "a cat"])
       = (1 + length ["a dog"; "a cat"])%nat
    /\ unet_call (unet (Small.small_model "epsilon")) x
         (TimestepScalar (Float32.of_Z 3))
         (guidance_embeddings (Small.small_model "epsilon") ["a dog"; "a cat"])
       = Raise e
    /\ result o = Raise e
    /\ events o
       = generate_preamble (Small.small_model "epsilon") ["a dog"; "a cat"] 3
         ++ [EvScaleModelInput (torch_cat [latents; latents]) (Float32.of_Z 3) x;
             EvUnet x (TimestepScalar (Float32.of_Z 3))
               (guidance_embeddings (Small.small_model "epsilon")
                  ["a dog"; "a cat"])
               (Raise e)].
Proof.
  apply (generate_rejects_several_prompts Small.small_torch
           (Small.small_model "epsilon") ["a dog"; "a cat"] 15 7 3 7.5%Q None 1
           1%Q (Small.small_world false) (Float32.of_Z 3)
           [Float32.of_Z 2; Float32.of_Z 1]).
  - intros prompts truncation. simpl. unfold Small.small_tokenizer.
    apply length_map.
  - intros ids. simpl. apply length_map.
  - intros x t0 s. reflexivity.
  - intros x t0 conditioning. apply small_unet_rejects.
  - simpl. lia.
  - reflexivity.
Defined.

(** X8 on the small model: zero inference steps. *)
Lemma generate_without_timesteps_witness :
  let noise := [fst (draws Small.small_torch
                       (latent_size (Small.small_model "epsilon") 16 8)
                       (manual_seed Small.small_torch 32))] in
  let sigma := init_noise_sigma (inference_scheduler (Small.small_model "epsilon"))
                 (set_timesteps (inference_scheduler (Small.small_model "epsilon"))
                    0 (sched (Small.small_world false))) in
  let o := generate Small.small_torch (Small.small_model "epsilon") ["a dog"]
             (Some 16%nat) (Some 8%nat) 0 7.5%Q None 1 1%Q
             (Small.small_world false) in
  result o
  = Ok (decode_images Small.small_torch (Small.small_model "epsilon")
          (mul_scalar noise sigma))
  /\ events o
     = generate_preamble (Small.small_model "epsilon") ["a dog"] 0
       ++ [EvVaeDecode (scalar_mul (lit (1 / 0.18215)%Q) (mul_scalar noise sigma))]
  /\ Forall (fun e => is_denoising e = false) (events o).
Proof.
  apply (generate_without_timesteps Small.small_torch
           (Small.small_model "epsilon") ["a dog"] 15 7 0 7.5%Q None 1 1%Q
           (Small.small_world false)).
  reflexivity.
Defined.

(** X9 on the small model: three prompts against two latent slices. *)
Lemma generate_batch_sizes_witness :
  Forall (unet_batch_sizes 2 (1 + length ["a dog"; "a cat"; "a bird"]))
    (events (generate Small.small_torch (Small.small_model "epsilon")
               ["a dog"; "a cat"; "a bird"] (Some 16%nat) (Some 8%nat) 2 7.5%Q
               None 1 1%Q (Small.small_world false))).
Proof.
  apply (generate_batch_sizes Small.small_torch (Small.small_model "epsilon")
           ["a dog"; "a cat"; "a bird"] (Some 16%nat) (Some 8%nat) 2 7.5%Q None 1
           1%Q (Small.small_world false)).
  - intros prompts truncation. simpl. unfold Small.small_tokenizer.
    apply length_map.
  - intros ids. simpl. apply length_map.
  - intros x t s. reflexivity.
  - intros model_output t sample s. apply small_step_length.
Defined.

(** X11: a train batch size of 4 on three processes. *)
Lemma main_batch_size_error_propagates_witness :
  main Small.small_torch Small.small_hub Small.small_helpers
    (Small.small_config (GradAccumInt 1) 2) Small.crowded_world
  = MkOutcome
      (Raise (ValueError "Global batch size must be divisible by world size"))
      (set_rng (manual_seed Small.small_torch
                  (seed (Small.small_config (GradAccumInt 1) 2)))
         Small.crowded_world)
      (EvSeedAll (seed (Small.small_config (GradAccumInt 1) 2))
       :: (if Nat.ltb 1 (world_size Small.crowded_world)
           then [EvInitializeDist
                   (if cuda_is_available Small.crowded_world then "gpu" else "cpu")]
           else [])).
Proof.
  apply (main_batch_size_error_propagates Small.small_torch Small.small_hub
           Small.small_helpers (Small.small_config (GradAccumInt 1) 2)
           Small.crowded_world).
  - reflexivity.
  - left. discriminate.
  - left. reflexivity.
Defined.


(** The nested class directory after the step: the two new levels are
    there, empty at the bottom, beside the directory that was there. *)
Lemma prior_preservation_nested_run :
  fs (world (prior_preservation Small.small_torch Small.small_helpers
               Small.nested_config (Small.small_model "epsilon") 1
               Small.nested_world))
  = Dir {[ "data" :=
             Dir {[ "cats" := Dir {[ "0-7.jpg" := File (fromarray [7%Z]) ]};
                    "dogs" := Dir {[ "class_images" := Dir ∅ ]} ]} ]}.
Proof. vm_compute. reflexivity. Qed.


(** X16 on one image under two indices. *)
Lemma class_image_filenames_distinct_witness :
  class_image_filename Small.small_helpers 5 0 (fromarray [1%Z])
  <> class_image_filename Small.small_helpers 5 1 (fromarray [1%Z]).
Proof.
  apply (class_image_filenames_distinct Small.small_helpers 5 0 1
           (fromarray [1%Z]) (fromarray [1%Z])).
  discriminate.
Defined.

(** X18: the script run with no argument. *)
Lemma script_usage_error_witness :
  script Small.small_torch Small.small_hub Small.small_helpers
    Small.small_omegaconf ["main.py"] (Small.small_world true)
  = MkOutcome (Raise (ValueError usage_message)) (Small.small_world true) [].
Proof.
  apply (script_usage_error Small.small_torch Small.small_hub Small.small_helpers
           Small.small_omegaconf ["main.py"] (Small.small_world true)).
  left. simpl. lia.
Defined.

(** X22 on the small model, under an unsupported prediction type. *)
Lemma forward_scales_latents_witness :
  let sampled :=
    fst (encode_sample (vae (Small.small_model "sample"))
           (FloatTensor [[Float32.of_Z 1; Float32.of_Z 2];
                         [Float32.of_Z 3; Float32.of_Z 4]])
           (rng (Small.small_world false))) in
  exists timesteps noise rest,
    events (forward Small.small_torch (Small.small_model "sample")
              Small.small_batch (Small.small_world false))
    = EvVaeEncode (FloatTensor [[Float32.of_Z 1; Float32.of_Z 2];
                                [Float32.of_Z 3; Float32.of_Z 4]])
      :: EvTextEncoder (LongTensor [[7; 8]; [9; 10]]%Z)
      :: EvAddNoise (mul_scalar sampled (lit 0.18215%Q)) noise timesteps
      :: rest
    /\ shape noise = shape sampled
    /\ length timesteps = length sampled.
Proof.
  apply (forward_scales_latents Small.small_torch (Small.small_model "sample")
           Small.small_batch
           (FloatTensor [[Float32.of_Z 1; Float32.of_Z 2];
                         [Float32.of_Z 3; Float32.of_Z 4]])
           (LongTensor [[7; 8]; [9; 10]]%Z) (Small.small_world false)).
  - vm_compute. reflexivity.
  - vm_compute. reflexivity.
Defined.
